(** * Arnold TX Converter: the conversion-orchestration logic of
      [tx_convert_gui.py], embedded in Rocq.

    The embedding covers the classifier ([is_displacement], [is_color]),
    the staleness checker ([needs_conversion]), the command builder
    ([build_maketx_cmd]), the conversion runner ([convert_one]) and the
    batch orchestrator ([ConvertWorker.run]).

    Modelling conventions.
    - A Python [str] is a [string]; its characters are read as the code
      points U+0000..U+00FF, and [lower], [strip] follow Python on that
      range.  Code points above U+00FF are outside the model.
    - Everything the code asks of the outside world (file system,
      environment, process execution, directory listing, scheduling of the
      thread pool, the cancellation flag) is an oracle in [Env] or
      [Schedule]; an oracle either answers or raises.
    - Python exceptions are values of [Exc]; code that may raise lives in
      the monad [M], which also records every call of [subprocess.run]. *)

From Stdlib Require Import List String Ascii Bool Arith ZArith QArith Lia Permutation.
Import ListNotations.

Local Open Scope string_scope.
Local Open Scope list_scope.
Local Open Scope nat_scope.

(** String concatenation, Python's [+] on [str]. *)
Infix "^^" := String.append (at level 60, right associativity).

(* ------------------------------------------------------------------ *)
(** * Python string operations *)

Module Str.

Definition code (c : ascii) : nat := nat_of_ascii c.

Definition between (lo hi n : nat) : bool := (lo <=? n) && (n <=? hi).

(** [str.lower] on one code point below U+0100: A..Z and the Latin-1
    capitals U+00C0..U+00DE (without the multiplication sign U+00D7)
    move up by 32, everything else stays. *)
Definition is_upper (c : ascii) : bool :=
  between 65 90 (code c)
  || (between 192 222 (code c) && negb (code c =? 215)).

Definition lower_char (c : ascii) : ascii :=
  if is_upper c then ascii_of_nat (code c + 32) else c.

Fixpoint lower (s : string) : string :=
  match s with
  | EmptyString => EmptyString
  | String c t => String (lower_char c) (lower t)
  end.

(** [sub in s] *)
Fixpoint contains (sub s : string) : bool :=
  match s with
  | EmptyString => String.prefix sub EmptyString
  | String _ t => String.prefix sub s || contains sub t
  end.

(** [str.isspace] on one code point below U+0100. *)
Definition isspace (c : ascii) : bool :=
  between 9 13 (code c) || between 28 32 (code c)
  || (code c =? 133) || (code c =? 160).

Fixpoint lstrip (s : string) : string :=
  match s with
  | EmptyString => EmptyString
  | String c t => if isspace c then lstrip t else s
  end.

Fixpoint rstrip (s : string) : string :=
  match s with
  | EmptyString => EmptyString
  | String c t =>
      match rstrip t with
      | EmptyString => if isspace c then EmptyString else String c EmptyString
      | t' => String c t'
      end
  end.

(** [s.strip()] *)
Definition strip (s : string) : string := rstrip (lstrip s).

(** truth value of a [str]: non-empty *)
Definition truthy (s : string) : bool :=
  match s with EmptyString => false | String _ _ => true end.

(** [s.rfind(c)], [None] standing for -1 *)
Fixpoint rfind (c : ascii) (s : string) : option nat :=
  match s with
  | EmptyString => None
  | String a t =>
      match rfind c t with
      | Some i => Some (S i)
      | None => if Ascii.eqb a c then Some 0 else None
      end
  end.

(** [s[:n]] and [s[n:]] for [0 <= n] *)
Fixpoint take (n : nat) (s : string) : string :=
  match n, s with
  | S n', String c t => String c (take n' t)
  | _, _ => EmptyString
  end.

Fixpoint drop (n : nat) (s : string) : string :=
  match n, s with
  | S n', String _ t => drop n' t
  | _, _ => s
  end.

(** [x in tup] for a tuple of strings *)
Fixpoint mem (x : string) (tup : list string) : bool :=
  match tup with
  | [] => false
  | y :: ys => String.eqb x y || mem x ys
  end.

End Str.

(* ------------------------------------------------------------------ *)
(** * Exceptions and the effect monad *)

(** The exceptions the modelled operations raise; all are subclasses of
    Python's [Exception].  The argument is [str(e)]. *)
Inductive Exc : Type :=
| ValueError (msg : string)
| OSError (msg : string)
| OtherException (msg : string).

Definition str_of_exc (e : Exc) : string :=
  match e with
  | ValueError m | OSError m | OtherException m => m
  end.

(** One call of [subprocess.run]: the command line and whether standard
    output is captured. *)
Record Event : Type := Spawned { spawn_cmd : list string; spawn_capture : bool }.

(** A computation that returns or raises, and logs its calls of
    [subprocess.run] on the way. *)
Definition M (A : Type) : Type := ((Exc + A) * list Event)%type.

Definition ret {A} (a : A) : M A := (inr a, []).
Definition lift {A} (r : Exc + A) : M A := (r, []).

Definition bind {A B} (m : M A) (f : A -> M B) : M B :=
  match m with
  | (inl e, t) => (inl e, t)
  | (inr a, t) => let (r, t') := f a in (r, t ++ t')
  end.

Notation "x <- m ;; k" := (bind m (fun x => k))
  (at level 61, m at next level, right associativity).

(* ------------------------------------------------------------------ *)
(** * Paths (pathlib) *)

(** A path is its final component [name] and everything before it
    ([dirpart], ending in a separator when non-empty); [windows] tells a
    [WindowsPath] from a [PosixPath]. *)
Record Path : Type := mkPath { windows : bool; dirpart : string; name : string }.

Definition str (p : Path) : string := dirpart p ^^ name p.

Definition name_suffix (nm : string) : string :=
  match Str.rfind "." nm with
  | Some i => if (0 <? i) && (i <? String.length nm - 1) then Str.drop i nm else EmptyString
  | None => EmptyString
  end.

(** [p.suffix] *)
Definition suffix (p : Path) : string := name_suffix (name p).

Definition has_sep (w : bool) (s : string) : bool :=
  Str.contains "/" s || (w && Str.contains "\" s).

(** [p.with_suffix(sfx)]; the path text inside the error messages is
    [str(p)], Python prints its [repr]. *)
Definition with_suffix (p : Path) (sfx : string) : Exc + Path :=
  if has_sep (windows p) sfx then inl (ValueError ("Invalid suffix " ^^ sfx))
  else if (Str.truthy sfx && negb (String.prefix "." sfx)) || String.eqb sfx "."
  then inl (ValueError ("Invalid suffix " ^^ sfx))
  else if negb (Str.truthy (name p))
  then inl (ValueError (str p ^^ " has an empty name"))
  else
    let old := suffix p in
    let nm := if negb (Str.truthy old) then name p ^^ sfx
              else Str.take (String.length (name p) - String.length old) (name p) ^^ sfx in
    inr (mkPath (windows p) (dirpart p) nm).

(* ------------------------------------------------------------------ *)
(** * The outside world *)

(** [os.stat_result]; [st_mtime] is a finite float, modelled by the
    rational it denotes. *)
Record Stat : Type := { st_mtime : Q }.

(** What [subprocess.run] gets back from the child. *)
Record ChildResult : Type :=
  { child_returncode : Z; child_stdout : string; child_stderr : string }.

Record CompletedProcess : Type :=
  { returncode : Z; stdout : option string; stderr : option string }.

Record Env : Type := {
  path_exists : string -> Exc + bool;      (* Path(s).exists() *)
  path_is_file : string -> Exc + bool;     (* Path(s).is_file() *)
  path_stat : string -> Exc + Stat;        (* Path(s).stat() *)
  run_child : list string -> Exc + ChildResult;
  environ_OCIO : option string;            (* os.environ, key "OCIO" *)
  cpu_count : option nat;                  (* os.cpu_count() *)
  glob_star : string -> Exc + list Path;   (* list(root.glob("*")) *)
  rglob_star : string -> Exc + list Path   (* list(root.rglob("*")) *)
}.

(** [subprocess.run(cmd, shell=False, stdout=PIPE if capture else DEVNULL,
    stderr=PIPE, text=True, check=False)] *)
Definition subprocess_run (env : Env) (cmd : list string) (capture : bool)
  : M CompletedProcess :=
  match run_child env cmd with
  | inl e => (inl e, [Spawned cmd capture])
  | inr c =>
      (inr {| returncode := child_returncode c;
              stdout := if capture then Some (child_stdout c) else None;
              stderr := Some (child_stderr c) |},
       [Spawned cmd capture])
  end.

(* ------------------------------------------------------------------ *)
(** * maketx helpers *)

Definition VALID_EXTS : list string :=
  [".png"; ".jpg"; ".jpeg"; ".tif"; ".tiff"; ".exr"; ".dds"; ".tga"; ".bmp"; ".psd"].
Definition COLOR_TAGS : list string := ["srgb"; "basecolor"; "albedo"; "color"; "diffuse"].
Definition DSP_TAGS : list string := ["dsp"; "disp"; "displacement"; "zdisp"; "height"].

Definition is_displacement (fname : Path) : bool :=
  let low := Str.lower (name fname) in
  existsb (fun tag => Str.contains tag low) DSP_TAGS.

Definition is_color (fname : Path) : bool :=
  let low := Str.lower (name fname) in
  if is_displacement fname then false
  else existsb (fun tag => Str.contains tag low) COLOR_TAGS.

(** [a > b] on modification times *)
Definition mtime_gt (a b : Q) : bool := negb (Qle_bool a b).

Definition needs_conversion (env : Env) (src dst : Path) : Exc + bool :=
  match path_exists env (str dst) with
  | inl e => inl e
  | inr false => inr true
  | inr true =>
      match path_stat env (str src) with
      | inl e => inl e
      | inr ss =>
          match path_stat env (str dst) with
          | inl e => inl e
          | inr ds => inr (mtime_gt (st_mtime ss) (st_mtime ds))
          end
      end
  end.

Definition opt_truthy (o : option string) : bool :=
  match o with Some s => Str.truthy s | None => false end.

Definition build_maketx_cmd (src : Path) (ocio_path : option string) (verbose : bool)
    (is_col is_dsp : bool) (maketx_path : string) : list string :=
  let cmd := [maketx_path; str src] in
  let cmd := match ocio_path with
             | Some o => if Str.truthy o then cmd ++ ["--colorconfig"; o] else cmd
             | None => cmd
             end in
  let cmd := cmd ++ [
      "--opaque-detect"; "--constant-color-detect"; "--monochrome-detect";
      "--fixnan"; "box3";
      "-u";
      "--filter"; "lanczos3";
      "--attrib"; "tiff:half"; "1";
      "--unpremult";
      "--oiio" ] in
  let cmd := cmd ++ ["--colorconvert"] in
  let cmd := if is_col then cmd ++ ["Utility - sRGB - Texture"; "ACES - ACEScg"]
             else cmd ++ ["Utility - Raw"; "ACES - ACEScg"] in
  let cmd := if is_dsp then cmd ++ ["-d"; "float"] else cmd ++ ["-d"; "half"] in
  let cmd := if verbose then cmd ++ ["-v"] else cmd in
  cmd ++ ["--threads"; "1"].

Definition Outcome : Type := (Path * bool * string)%type.

Definition tx_suffixed (src : Path) : bool := String.eqb (Str.lower (suffix src)) ".tx".

(** The body of the [try] block of [convert_one]. *)
Definition convert_one_body (env : Env) (src : Path) (ocio_path : option string)
    (verbose : bool) (maketx_path : string) : M Outcome :=
  dst <- (if negb (tx_suffixed src)
          then lift (with_suffix src (suffix src ^^ ".tx"))
          else ret src) ;;
  if tx_suffixed src then ret (src, false, "Already a .tx; skipping.")
  else
    needed <- lift (needs_conversion env src dst) ;;
    if negb needed
    then ret (src, false, "Up-to-date .tx exists: " ^^ name dst ^^ "; skipping.")
    else
      let col := is_color src in
      let dsp := is_displacement src in
      let cmd := build_maketx_cmd src ocio_path verbose col dsp maketx_path in
      proc <- subprocess_run env cmd verbose ;;
      if (returncode proc =? 0)%Z then
        let out_msg := if verbose && opt_truthy (stdout proc)
                       then EmptyString ^^ Str.strip (match stdout proc with Some s => s | None => EmptyString end)
                       else EmptyString in
        ret (src, true, if Str.truthy out_msg then out_msg else "OK")
      else
        let err := Str.strip (match stderr proc with
                              | Some s => if Str.truthy s then s else EmptyString
                              | None => EmptyString
                              end) in
        ret (src, false,
             "maketx failed: " ^^ (if Str.truthy err then err else "Unknown error")).

(** [convert_one]: the body under [except Exception as e]. *)
Definition convert_one (env : Env) (src : Path) (ocio_path : option string)
    (verbose : bool) (maketx_path : string) : Outcome * list Event :=
  match convert_one_body env src ocio_path verbose maketx_path with
  | (inr o, t) => (o, t)
  | (inl e, t) => ((src, false, "Exception: " ^^ str_of_exc e), t)
  end.

(* ------------------------------------------------------------------ *)
(** * Worker *)

(** The text handed to the [item_done] signal, by the f-string that
    builds it. *)
Inductive LogLine : Type :=
| LogFound (total max_workers : nat)   (* Found {total} texture(s). Using {max_workers} worker(s). *)
| LogCancel                            (* Cancellation requested. Stopping... *)
| LogOk (nm message : string)          (* check mark, {src.name}: {message} *)
| LogSkip (nm message : string)        (* bullet, {src.name}: {message} *)
| LogFail (nm message : string).       (* cross, {src.name}: {message} *)

Inductive Signal : Type :=
| progress (done total : nat)
| item_done (line : LogLine)
| finished (ok fail : nat)
| fatal (msg : string).

(** How the thread pool and the GUI thread interleave with the drain
    loop of [run]: [completion] lists the submitted tasks (by index of
    submission) in the order [as_completed] yields them, [cancelled_at k]
    is the value of [self._cancelled] read by the k-th iteration. *)
Record Schedule : Type := { completion : list nat; cancelled_at : nat -> bool }.

(** The counters [done], [ok], [fail] of [run]. *)
Record Tally : Type := mkTally { done : nat; ok : nat; fail : nat }.

(** What a call of [run] leaves behind: the signals emitted, in order;
    the tasks submitted to the pool with what each of them returned and
    started (the pool is shut down with [wait=True], so every submitted
    task has run when [run] returns); an exception that left [run]. *)
Record RunResult : Type := {
  signals : list Signal;
  submitted : list Path;
  task_results : list (Outcome * list Event);
  raised : option Exc
}.

Module ConvertWorker.

Record t : Type := {
  root_dir : Path;
  filter_str : string;
  recursive : bool;
  ocio_file : option string;
  verbose : bool;
  maketx_path : string
}.

(** [__init__] *)
Definition init (root_dir : Path) (filter_str : string) (recursive : bool)
    (ocio_file : option string) (verbose : bool) (maketx_path : string) : t :=
  {| root_dir := root_dir;
     filter_str := if Str.truthy filter_str then Str.strip filter_str else EmptyString;
     recursive := recursive;
     ocio_file := if opt_truthy ocio_file
                  then option_map Str.strip ocio_file else None;
     verbose := verbose;
     maketx_path := Str.strip maketx_path |}.

(** Lines 166-168: [not self.maketx_path or not Path(self.maketx_path).exists()] *)
Definition maketx_missing (env : Env) (self : t) : Exc + bool :=
  if negb (Str.truthy (maketx_path self)) then inr true
  else match path_exists env (maketx_path self) with
       | inl e => inl e
       | inr b => inr (negb b)
       end.

(** Lines 170-184: the colour configuration to use, or the message of
    the fatal signal. *)
Definition resolve_ocio (env : Env) (self : t) : Exc + (string + string) :=
  if opt_truthy (ocio_file self) then
    let f := match ocio_file self with Some f => f | None => EmptyString end in
    match path_is_file env f with
    | inl e => inl e
    | inr false => inr (inl ("OCIO file not found: " ^^ f))
    | inr true => inr (inr f)
    end
  else
    let env_ocio := Str.strip (match environ_OCIO env with
                               | Some v => v
                               | None => EmptyString
                               end) in
    if negb (Str.truthy env_ocio)
    then inr (inl "No OCIO specified and $OCIO is not set.")
    else match path_exists env env_ocio with
         | inl e => inl e
         | inr false => inr (inl ("$OCIO points to non-existent file: " ^^ env_ocio))
         | inr true => inr (inr env_ocio)
         end.

(** The test of lines 190-192 (196-198) on one listed path: [Some true]
    appends it to [files]. *)
Definition keep (env : Env) (self : t) (p : Path) : Exc + bool :=
  match path_is_file env (str p) with
  | inl e => inl e
  | inr isf =>
      if isf && Str.mem (Str.lower (suffix p)) VALID_EXTS then
        if Str.truthy (filter_str self) && negb (Str.contains (filter_str self) (name p))
        then inr false
        else inr true
      else inr false
  end.

Fixpoint collect (env : Env) (self : t) (listing : list Path) : Exc + list Path :=
  match listing with
  | [] => inr []
  | p :: rest =>
      match keep env self p with
      | inl e => inl e
      | inr k =>
          match collect env self rest with
          | inl e => inl e
          | inr files => inr (if k then p :: files else files)
          end
      end
  end.

(** Lines 186-199, the body of the [try]. *)
Definition enumerate (env : Env) (self : t) : Exc + list Path :=
  match (if recursive self then rglob_star env (str (root_dir self))
         else glob_star env (str (root_dir self))) with
  | inl e => inl e
  | inr listing => collect env self listing
  end.

(** Line 218: every file is submitted; the i-th task runs [convert_one]
    in the world [task_env i] it meets when a worker picks it up. *)
Definition submit_all (task_env : nat -> Env) (files : list Path)
    (ocio_to_use : string) (self : t) : list (Outcome * list Event) :=
  map (fun ip : nat * Path =>
         convert_one (task_env (fst ip)) (snd ip) (Some ocio_to_use)
                     (verbose self) (maketx_path self))
      (combine (seq 0 (List.length files)) files).

(** Line 219: the futures in the order [as_completed] yields them. *)
Definition as_completed (sch : Schedule) (futures : list Outcome) : list Outcome :=
  flat_map (fun i => match nth_error futures i with
                     | Some o => [o]
                     | None => []
                     end) (completion sch).

(** Lines 223-234: one iteration that was not cancelled. *)
Definition tally_one (o : Outcome) (total : nat) (t : Tally) : Tally * list Signal :=
  let '(src, success, message) := o in
  let done' := done t + 1 in
  if success then
    (mkTally done' (ok t + 1) (fail t),
     [item_done (LogOk (name src) message); progress done' total])
  else if Str.contains "skip" (Str.lower message) then
    (mkTally done' (ok t) (fail t),
     [item_done (LogSkip (name src) message); progress done' total])
  else
    (mkTally done' (ok t) (fail t + 1),
     [item_done (LogFail (name src) message); progress done' total]).

(** Lines 219-234: the loop over the completed futures; [k] counts the
    iterations. *)
Fixpoint drain (cancelled : nat -> bool) (k : nat) (futs : list Outcome)
    (total : nat) (t : Tally) : Tally * list Signal :=
  match futs with
  | [] => (t, [])
  | fut :: rest =>
      if cancelled k then (t, [item_done LogCancel])
      else
        let (t', s) := tally_one fut total t in
        let (t'', s') := drain cancelled (S k) rest total t' in
        (t'', s ++ s')
  end.

Definition stopped (sigs : list Signal) (e : option Exc) : RunResult :=
  {| signals := sigs; submitted := []; task_results := []; raised := e |}.

Definition run (env : Env) (task_env : nat -> Env) (sch : Schedule) (self : t)
  : RunResult :=
  match maketx_missing env self with
  | inl e => stopped [] (Some e)
  | inr true =>
      stopped [fatal "maketx.exe not set or not found. Please select the path in the GUI."] None
  | inr false =>
      match resolve_ocio env self with
      | inl e => stopped [] (Some e)
      | inr (inl msg) => stopped [fatal msg] None
      | inr (inr ocio_to_use) =>
          match enumerate env self with
          | inl e => stopped [fatal ("Failed to list files: " ^^ str_of_exc e)] None
          | inr files =>
              let total := List.length files in
              if total =? 0
              then stopped [fatal "No valid textures in folder (check extensions or filter)."] None
              else
                let cpu := Nat.max 1 ((match cpu_count env with
                                       | Some (S n) => S n
                                       | _ => 1
                                       end) - 1) in
                let max_workers := Nat.max 1 cpu in
                let results := submit_all task_env files ocio_to_use self in
                let (t, sigs) :=
                  drain (cancelled_at sch) 0 (as_completed sch (map fst results))
                        total (mkTally 0 0 0) in
                {| signals := item_done (LogFound total max_workers) :: sigs
                              ++ [finished (ok t) (fail t)];
                   submitted := files;
                   task_results := results;
                   raised := None |}
          end
      end
  end.

End ConvertWorker.

(* ------------------------------------------------------------------ *)
(** * Vocabulary of the specification *)

(** [sub] occurs in [s]. *)
Definition substring_of (sub s : string) : Prop :=
  exists pre post, s = pre ^^ sub ^^ post.

(** [tag] occurs in [s] up to letter case: some stretch of [s] and [tag]
    have the same lower-case form. *)
Definition ci_substring (tag s : string) : Prop :=
  exists pre mid post, s = pre ^^ mid ^^ post /\ Str.lower mid = Str.lower tag.

(** The three kinds of outcome the orchestrator tells apart. *)
Inductive Kind : Type := Success | Failure | Skip.

Definition kind_of (o : Outcome) : Kind :=
  let '(_, success, message) := o in
  if success then Success
  else if Str.contains "skip" (Str.lower message) then Skip else Failure.

Definition count_kind (k : Kind) (l : list Outcome) : nat :=
  List.length (filter (fun o => match kind_of o, k with
                                | Success, Success | Failure, Failure | Skip, Skip => true
                                | _, _ => false
                                end) l).

(** The calls of [subprocess.run] made by all tasks of a run. *)
Definition processes (r : RunResult) : list Event := flat_map snd (task_results r).

(** The item line emitted for an outcome. *)
Definition line_of (o : Outcome) : LogLine :=
  let '(src, _, message) := o in
  match kind_of o with
  | Success => LogOk (name src) message
  | Skip => LogSkip (name src) message
  | Failure => LogFail (name src) message
  end.

(** [a] immediately followed by [b] somewhere in [cmd]. *)
Definition includes_pair (a b : string) (cmd : list string) : Prop :=
  exists pre post, cmd = pre ++ a :: b :: post.

(** The signals of the drain loop for the outcomes [futs], tallied in
    this order after [done0] earlier ones. *)
Fixpoint item_signals (done0 total : nat) (futs : list Outcome) : list Signal :=
  match futs with
  | [] => []
  | o :: rest =>
      item_done (line_of o) :: progress (done0 + 1) total
      :: item_signals (done0 + 1) total rest
  end.

(** The counters after the outcomes [l] have been tallied. *)
Definition tally_after (t : Tally) (l : list Outcome) : Tally :=
  mkTally (done t + List.length l)
          (ok t + count_kind Success l)
          (fail t + count_kind Failure l).

(** The same pool schedule with the cancellation flag never set. *)
Definition uncancelled (sch : Schedule) : Schedule :=
  {| completion := completion sch; cancelled_at := fun _ => false |}.

Definition outcomes (r : RunResult) : list Outcome := map fst (task_results r).

Definition source_of (o : Outcome) : Path := fst (fst o).

(* ------------------------------------------------------------------ *)
(** * Sample worlds *)

(** A world for one conversion of "/tex/a.png": whether the destination
    exists, the two modification times, and what starting the converter
    gives.  [stat] of the source fails when [src_time] is [None]. *)
Definition sample_env (dst_there : bool) (src_time : option Q) (dst_time : Q)
    (child : Exc + ChildResult) : Env :=
  {| path_exists := fun _ => inr dst_there;
     path_is_file := fun _ => inr true;
     path_stat := fun s =>
       if String.eqb s "/tex/a.png"
       then match src_time with
            | Some t => inr {| st_mtime := t |}
            | None => inl (OSError "[Errno 2] No such file or directory: '/tex/a.png'")
            end
       else inr {| st_mtime := dst_time |};
     run_child := fun _ => child;
     environ_OCIO := None;
     cpu_count := None;
     glob_star := fun _ => inr [];
     rglob_star := fun _ => inr [] |}.

Definition a_png : Path := mkPath false "/tex/" "a.png".
Definition a_png_tx : Path := mkPath false "/tex/" "a.png.tx".

Definition no_child : Exc + ChildResult := inl (OSError "no such program").

(** A world for a batch under "/tex/": the converter and every colour
    configuration except "/cfg/missing.ocio" exist, no destination under
    "/tex/" exists yet, and the folder lists as [listing]. *)
Definition batch_env (ocio_env : option string) (listing : list Path)
    (child : Exc + ChildResult) : Env :=
  {| path_exists := fun s =>
       inr (negb (String.prefix "/tex/" s) && negb (String.eqb s "/cfg/missing.ocio"));
     path_is_file := fun s => inr (negb (String.eqb s "/cfg/missing.ocio"));
     path_stat := fun _ => inr {| st_mtime := 7#1 |};
     run_child := fun _ => child;
     environ_OCIO := ocio_env;
     cpu_count := Some 4;
     glob_star := fun _ => inr listing;
     rglob_star := fun _ => inr listing |}.

Definition tex (nm : string) : Path := mkPath false "/tex/" nm.

Definition child_ok : Exc + ChildResult :=
  inr {| child_returncode := 0; child_stdout := EmptyString; child_stderr := EmptyString |}.

Definition sample_worker (ocio : option string) : ConvertWorker.t :=
  ConvertWorker.init (mkPath false "/" "tex") EmptyString false ocio false "/bin/maketx".

Definition sample_listing : list Path :=
  [tex "a.png"; tex "b_disp.EXR"; tex "notes.txt"; tex "c.tx"].

Definition sample_batch : Env :=
  batch_env (Some " /cfg/aces.ocio ") sample_listing child_ok.

(** Two tasks, the second submitted completing first; the flag is set
    from iteration [cancel_from] on. *)
Definition sample_schedule (cancel_from : nat) : Schedule :=
  {| completion := [1; 0]; cancelled_at := fun k => cancel_from <=? k |}.

(** The outcome [convert_one] returns from its [except] clause. *)
Definition exception_outcome (src : Path) (e : Exc) : Outcome :=
  (src, false, "Exception: " ^^ str_of_exc e).

(** The command line [convert_one] builds for [src]. *)
Definition convert_cmd (src : Path) (ocio_path : option string) (verbose : bool)
    (maketx_path : string) : list string :=
  build_maketx_cmd src ocio_path verbose (is_color src) (is_displacement src) maketx_path.

(** [convert_one] gets as far as starting the converter, and the child
    comes back with [c]. *)
Definition reaches_process (env : Env) (src : Path) (ocio_path : option string)
    (verbose : bool) (maketx_path : string) (c : ChildResult) : Prop :=
  exists dst,
    tx_suffixed src = false
    /\ with_suffix src (suffix src ^^ ".tx") = inr dst
    /\ needs_conversion env src dst = inr true
    /\ run_child env (convert_cmd src ocio_path verbose maketx_path) = inr c.

Definition message_of (r : Outcome * list Event) : string := snd (fst r).

(** The reading of the success message as the captured output itself. *)
Definition stdout_verbatim : Prop :=
  forall env src ocio_path maketx_path c,
    reaches_process env src ocio_path true maketx_path c ->
    child_returncode c = 0%Z ->
    child_stdout c <> EmptyString ->
    message_of (convert_one env src ocio_path true maketx_path) = child_stdout c.

(** The messages as the code forms them. *)
Definition success_message (verbose : bool) (out : string) : string :=
  if verbose && Str.truthy (Str.strip out) then Str.strip out else "OK".

Definition failure_message (err : string) : string :=
  "maketx failed: "
  ^^ (if Str.truthy (Str.strip err) then Str.strip err else "Unknown error").

Definition newline : string := String (ascii_of_nat 10) EmptyString.

Definition success_of (r : Outcome * list Event) : bool := snd (fst (fst r)).

(** A converter that fails and mentions skipping on standard error. *)
Definition child_skip_error : Exc + ChildResult :=
  inr {| child_returncode := 1;
         child_stdout := EmptyString;
         child_stderr := "Skipping: unsupported format " ^^ newline |}.

(** A final component as pathlib produces them: non-empty and free of
    separators. *)
Definition plain_name (p : Path) : Prop :=
  name p <> EmptyString /\ has_sep (windows p) (name p) = false.

(** The destination next to [src]. *)
Definition tx_sibling (src : Path) : Path :=
  mkPath (windows src) (dirpart src) (name src ^^ ".tx").

(** The signals that end a run for the GUI. *)
Definition is_terminal (s : Signal) : bool :=
  match s with
  | finished _ _ | fatal _ => true
  | _ => false
  end.

(** A listed path that the enumeration of [run] appends to [files]. *)
Definition kept (env : Env) (self : ConvertWorker.t) (p : Path) : bool :=
  match ConvertWorker.keep env self p with
  | inr true => true
  | _ => false
  end.

(** [is_file] answers for every listed path. *)
Definition is_file_answers (env : Env) (listing : list Path) : Prop :=
  forall p, In p listing -> exists b, path_is_file env (str p) = inr b.

(** The listing [run] asks for. *)
Definition listing_of (env : Env) (self : ConvertWorker.t) : Exc + list Path :=
  if ConvertWorker.recursive self
  then rglob_star env (str (ConvertWorker.root_dir self))
  else glob_star env (str (ConvertWorker.root_dir self)).

(** [run] has passed the converter and colour-configuration checks. *)
Definition checks_passed (env : Env) (self : ConvertWorker.t) : Prop :=
  ConvertWorker.maketx_missing env self = inr false
  /\ exists ocio, ConvertWorker.resolve_ocio env self = inr (inr ocio).

(** Counting the item lines of a signal trace by their mark. *)
Definition count_lines (f : LogLine -> bool) (sigs : list Signal) : nat :=
  List.length (filter (fun s => match s with
                                | item_done l => f l
                                | _ => false
                                end) sigs).

Definition is_ok_line (l : LogLine) : bool :=
  match l with LogOk _ _ => true | _ => false end.

Definition is_fail_line (l : LogLine) : bool :=
  match l with LogFail _ _ => true | _ => false end.

(** The argument list laid out in one piece, by the transform that
    stands after "--colorconvert" and the depth that stands after "-d". *)
Definition cmd_layout (src : Path) (ocio_path : option string) (verbose : bool)
    (maketx_path transform depth : string) : list string :=
  [maketx_path; str src]
  ++ match ocio_path with
     | Some o => if Str.truthy o then ["--colorconfig"; o] else []
     | None => []
     end
  ++ ["--opaque-detect"; "--constant-color-detect"; "--monochrome-detect";
      "--fixnan"; "box3"; "-u"; "--filter"; "lanczos3";
      "--attrib"; "tiff:half"; "1"; "--unpremult"; "--oiio"]
  ++ ["--colorconvert"; transform; "ACES - ACEScg"; "-d"; depth]
  ++ (if verbose then ["-v"] else [])
  ++ ["--threads"; "1"].

Definition transform_for (is_col : bool) : string :=
  if is_col then "Utility - sRGB - Texture" else "Utility - Raw".

Definition depth_for (is_dsp : bool) : string :=
  if is_dsp then "float" else "half".

(** The reading of the fallback rule that asks $OCIO to name a regular
    file: a fallback value that is not one stops the run before any task
    is submitted. *)
Definition fallback_must_be_file : Prop :=
  forall (env : Env) (task_env : nat -> Env) (sch : Schedule)
         (self : ConvertWorker.t) (v : string),
    ConvertWorker.maketx_missing env self = inr false ->
    ConvertWorker.ocio_file self = None ->
    environ_OCIO env = Some v ->
    path_is_file env (Str.strip v) = inr false ->
    submitted (ConvertWorker.run env task_env sch self) = [].

(** A world like [batch_env] in which "/cfg" is a directory: it exists
    and is not a regular file. *)
Definition dir_env (ocio_env : option string) (listing : list Path)
    (child : Exc + ChildResult) : Env :=
  {| path_exists := fun s => inr (negb (String.prefix "/tex/" s));
     path_is_file := fun s => inr (negb (String.eqb s "/cfg"));
     path_stat := fun _ => inr {| st_mtime := 7#1 |};
     run_child := fun _ => child;
     environ_OCIO := ocio_env;
     cpu_count := Some 4;
     glob_star := fun _ => inr listing;
     rglob_star := fun _ => inr listing |}.

(* ------------------------------------------------------------------ *)
(** * Facts about the string operations *)

Section StringFacts.

Lemma append_nil_r (s : string) : s ^^ EmptyString = s.
Proof. induction s as [|c s IH]; simpl; [reflexivity | now rewrite IH]. Qed.

Lemma append_assoc (a b c : string) : (a ^^ b) ^^ c = a ^^ b ^^ c.
Proof. induction a as [|x a IH]; simpl; [reflexivity | now rewrite IH]. Qed.

Lemma prefix_spec (a s : string) :
  String.prefix a s = true <-> exists b, s = a ^^ b.
Proof.
  revert s; induction a as [|x a IH]; intros s.
  - destruct s; simpl; split; intros _; try reflexivity; eexists; reflexivity.
  - destruct s as [|y s]; simpl.
    + split; [discriminate | intros [b Hb]; discriminate].
    + destruct (ascii_dec x y) as [->|Hne].
      * rewrite IH. split; intros [b Hb]; exists b; congruence.
      * split; [discriminate | intros [b Hb]; congruence].
Qed.

Lemma contains_spec (sub s : string) :
  Str.contains sub s = true <-> substring_of sub s.
Proof.
  unfold substring_of.
  induction s as [|c s IH]; cbn [Str.contains].
  - rewrite prefix_spec. split.
    + intros [b Hb]. exists EmptyString, b. exact Hb.
    + intros [pre [post H]]. destruct pre; simpl in H; [eauto | discriminate].
  - rewrite orb_true_iff, prefix_spec, IH. split.
    + intros [[b Hb] | [pre [post H]]].
      * exists EmptyString, b. exact Hb.
      * exists (String c pre), post. simpl. now rewrite H.
    + intros [pre [post H]]. destruct pre as [|x pre]; simpl in H.
      * left. eauto.
      * right. injection H as _ H. eauto.
Qed.

Lemma contains_app_r (sub a b : string) :
  Str.contains sub b = true -> Str.contains sub (a ^^ b) = true.
Proof.
  rewrite !contains_spec. intros [pre [post H]].
  exists (a ^^ pre), post. now rewrite append_assoc, H.
Qed.

Lemma lower_app (a b : string) : Str.lower (a ^^ b) = Str.lower a ^^ Str.lower b.
Proof. induction a as [|x a IH]; simpl; [reflexivity | now rewrite IH]. Qed.

Lemma lower_split (s x y : string) :
  Str.lower s = x ^^ y ->
  exists s1 s2, s = s1 ^^ s2 /\ Str.lower s1 = x /\ Str.lower s2 = y.
Proof.
  revert s; induction x as [|c x IH]; intros s H; simpl in H.
  - exists EmptyString, s. auto.
  - destruct s as [|d s]; simpl in H; [discriminate|].
    injection H as Hc Hs.
    destruct (IH _ Hs) as [s1 [s2 [-> [H1 H2]]]].
    exists (String d s1), s2. simpl. rewrite H1, Hc. auto.
Qed.

(** What the code tests, [tag in name.lower()], is the occurrence of a
    lower-case [tag] in [name] up to letter case. *)
Lemma contains_lower_ci (tag nm : string) :
  Str.lower tag = tag ->
  (Str.contains tag (Str.lower nm) = true <-> ci_substring tag nm).
Proof.
  intros Htag. rewrite contains_spec. unfold substring_of, ci_substring. split.
  - intros [pre [post H]].
    destruct (lower_split _ _ _ H) as [s1 [s23 [-> [H1 H23]]]].
    destruct (lower_split _ _ _ H23) as [s2 [s3 [-> [H2 H3]]]].
    exists s1, s2, s3. rewrite Htag. auto.
  - intros [pre [mid [post [-> Hmid]]]].
    exists (Str.lower pre), (Str.lower post).
    now rewrite !lower_app, Hmid, Htag.
Qed.

Lemma tags_lower_case (tag : string) :
  In tag (DSP_TAGS ++ COLOR_TAGS) -> Str.lower tag = tag.
Proof.
  simpl. intros H.
  repeat (destruct H as [<- | H]; [reflexivity|]). contradiction.
Qed.

Lemma any_tag_spec (tags : list string) (nm : string) :
  (forall tag, In tag tags -> Str.lower tag = tag) ->
  (existsb (fun tag => Str.contains tag (Str.lower nm)) tags = true
   <-> exists tag, In tag tags /\ ci_substring tag nm).
Proof.
  intros Hlow. rewrite existsb_exists. split.
  - intros [tag [Hin Hc]]. exists tag. split; [exact Hin|].
    now apply contains_lower_ci; auto.
  - intros [tag [Hin Hc]]. exists tag. split; [exact Hin|].
    now apply contains_lower_ci; auto.
Qed.

Lemma mem_spec (x : string) (l : list string) : Str.mem x l = true <-> In x l.
Proof.
  induction l as [|y l IH]; simpl.
  - split; [discriminate | contradiction].
  - rewrite orb_true_iff, String.eqb_eq, IH. split; intros [H|H]; auto.
Qed.

End StringFacts.

(* ------------------------------------------------------------------ *)
(** * Classifier *)

(** C2.  A file name that contains a displacement tag ("dsp", "disp",
    "displacement", "zdisp", "height") up to letter case is classified
    displacement and not colour, whatever else it contains; a file name
    that contains no displacement tag is classified colour exactly when it
    contains a colour tag ("srgb", "basecolor", "albedo", "color",
    "diffuse") up to letter case. *)
Theorem classifier_by_tags (fname : Path) :
  ((exists tag, In tag DSP_TAGS /\ ci_substring tag (name fname)) ->
   is_displacement fname = true /\ is_color fname = false)
  /\
  ((forall tag, In tag DSP_TAGS -> ~ ci_substring tag (name fname)) ->
   is_displacement fname = false
   /\ (is_color fname = true <->
       exists tag, In tag COLOR_TAGS /\ ci_substring tag (name fname))).
Proof.
  assert (Hd : forall tag, In tag DSP_TAGS -> Str.lower tag = tag)
    by (intros; apply tags_lower_case, in_or_app; auto).
  assert (Hc : forall tag, In tag COLOR_TAGS -> Str.lower tag = tag)
    by (intros; apply tags_lower_case, in_or_app; auto).
  split.
  - intros H. apply (any_tag_spec DSP_TAGS _ Hd) in H.
    unfold is_color. unfold is_displacement at 1 2. rewrite H. auto.
  - intros Hno.
    assert (Hf : is_displacement fname = false).
    { unfold is_displacement. apply not_true_is_false. intros H.
      apply (any_tag_spec DSP_TAGS _ Hd) in H. destruct H as [tag [Hin Hci]].
      exact (Hno tag Hin Hci). }
    split; [exact Hf|].
    unfold is_color. rewrite Hf. apply (any_tag_spec COLOR_TAGS _ Hc).
Qed.

Lemma classifier_by_tags_witness :
  let f := mkPath false "/tex/" "Rock_HEIGHT_color.exr" in
  is_displacement f = true /\ is_color f = false.
Proof.
  intros f. apply (proj1 (classifier_by_tags f)).
  exists "height". split.
  - do 4 right. left. reflexivity.
  - exists "Rock_", "HEIGHT", "_color.exr". split; reflexivity.
Defined.

(* ------------------------------------------------------------------ *)
(** * Staleness checker *)

Lemma mtime_gt_spec (a b : Q) : mtime_gt a b = true <-> (b < a)%Q.
Proof.
  unfold mtime_gt. rewrite negb_true_iff, <- not_true_iff_false, Qle_bool_iff.
  split; [apply Qnot_le_lt | apply Qlt_not_le].
Qed.

(** C3.  [needs_conversion] answers true when the destination does not
    exist; when it exists (and both files can be examined) the answer is
    true exactly when the source's modification time is strictly greater
    than the destination's, so equal times give false. *)
Theorem needs_conversion_policy (env : Env) (src dst : Path) :
  (path_exists env (str dst) = inr false ->
   needs_conversion env src dst = inr true)
  /\
  (forall ss ds,
      path_exists env (str dst) = inr true ->
      path_stat env (str src) = inr ss ->
      path_stat env (str dst) = inr ds ->
      (exists b, needs_conversion env src dst = inr b
                 /\ (b = true <-> (st_mtime ds < st_mtime ss)%Q))
      /\ ((st_mtime ss == st_mtime ds)%Q ->
          needs_conversion env src dst = inr false)).
Proof.
  unfold needs_conversion. split.
  - intros ->. reflexivity.
  - intros ss ds -> -> ->. split.
    + eexists. split; [reflexivity | apply mtime_gt_spec].
    + intros Heq. f_equal. apply not_true_is_false. rewrite mtime_gt_spec.
      rewrite Heq. apply Qlt_irrefl.
Qed.

Lemma needs_conversion_policy_witness :
  needs_conversion (sample_env false (Some (7#1)) (7#1) no_child) a_png a_png_tx = inr true
  /\ needs_conversion (sample_env true (Some (7#1)) (14#2) no_child) a_png a_png_tx = inr false.
Proof.
  split.
  - apply (proj1 (needs_conversion_policy
                    (sample_env false (Some (7#1)) (7#1) no_child) a_png a_png_tx)).
    reflexivity.
  - apply (proj2 (needs_conversion_policy
                    (sample_env true (Some (7#1)) (14#2) no_child) a_png a_png_tx)
             {| st_mtime := 7#1 |} {| st_mtime := 14#2 |});
      reflexivity.
Defined.

(* ------------------------------------------------------------------ *)
(** * Command builder *)

Lemma includes_pair_app_l (a b : string) (l r : list string) :
  includes_pair a b l -> includes_pair a b (l ++ r).
Proof.
  intros [pre [post ->]]. exists pre, (post ++ r).
  now rewrite <- app_assoc.
Qed.

Lemma includes_pair_tail (a b : string) (l r : list string) :
  includes_pair a b (l ++ a :: b :: r).
Proof. now exists l, r. Qed.

Ltac find_pair :=
  first [ apply includes_pair_tail
        | apply includes_pair_app_l; find_pair ].

(** The builder's list is the layout, with the transform and the depth
    its two flags choose. *)
Lemma build_maketx_cmd_layout (src : Path) (ocio_path : option string)
    (verbose is_col is_dsp : bool) (maketx_path : string) :
  build_maketx_cmd src ocio_path verbose is_col is_dsp maketx_path
  = cmd_layout src ocio_path verbose maketx_path
               (transform_for is_col) (depth_for is_dsp).
Proof.
  unfold build_maketx_cmd, cmd_layout, transform_for, depth_for.
  destruct ocio_path as [[|a o]|], verbose, is_col, is_dsp; reflexivity.
Qed.

(** The layout shows its transform and its depth: two layouts of the
    same source and options agree only when both do. *)
Lemma cmd_layout_inj (src : Path) (ocio_path : option string) (verbose : bool)
    (maketx_path t d t' d' : string) :
  cmd_layout src ocio_path verbose maketx_path t d
  = cmd_layout src ocio_path verbose maketx_path t' d' ->
  t = t' /\ d = d'.
Proof.
  unfold cmd_layout. intros H.
  do 3 apply app_inv_head in H.
  cbn [app] in H. injection H as Ht Hd. auto.
Qed.

Lemma build_maketx_cmd_reads_flags (src : Path) (ocio_path : option string)
    (verbose is_col is_dsp is_col' is_dsp' : bool) (maketx_path : string) :
  build_maketx_cmd src ocio_path verbose is_col' is_dsp' maketx_path
  = build_maketx_cmd src ocio_path verbose is_col is_dsp maketx_path ->
  is_col' = is_col /\ is_dsp' = is_dsp.
Proof.
  rewrite !build_maketx_cmd_layout. intros H.
  apply cmd_layout_inj in H. destruct H as [Ht Hd].
  split.
  - destruct is_col', is_col; try reflexivity; discriminate Ht.
  - destruct is_dsp', is_dsp; try reflexivity; discriminate Hd.
Qed.

(** C4.  The argument list is, entry for entry, the converter path, the
    source path, the optional "--colorconfig" pair, the thirteen fixed
    options, then "--colorconvert", the transform, "ACES - ACEScg", "-d",
    the depth, then "-v" when verbose and "--threads", "1" -- where the
    depth is "float" when the displacement flag is set and "half"
    otherwise, and the transform is "Utility - sRGB - Texture" when the
    colour flag is set and "Utility - Raw" otherwise.  So the list
    contains the pair "-d", depth and the pair transform, "ACES -
    ACEScg"; the two flags can be read back from the list, so neither is
    ignored; and the list is a function of the six arguments alone. *)
Theorem build_maketx_cmd_flags (src : Path) (ocio_path : option string)
    (verbose is_col is_dsp : bool) (maketx_path : string) :
  let cmd := build_maketx_cmd src ocio_path verbose is_col is_dsp maketx_path in
  cmd = cmd_layout src ocio_path verbose maketx_path
                   (if is_col then "Utility - sRGB - Texture" else "Utility - Raw")
                   (if is_dsp then "float" else "half")
  /\ includes_pair "-d" (if is_dsp then "float" else "half") cmd
  /\ includes_pair (if is_col then "Utility - sRGB - Texture" else "Utility - Raw")
                   "ACES - ACEScg" cmd
  /\ (forall is_col' is_dsp',
         build_maketx_cmd src ocio_path verbose is_col' is_dsp' maketx_path = cmd ->
         is_col' = is_col /\ is_dsp' = is_dsp)
  /\ (forall src' ocio_path' verbose' is_col' is_dsp' maketx_path',
         (src, ocio_path, verbose, is_col, is_dsp, maketx_path)
         = (src', ocio_path', verbose', is_col', is_dsp', maketx_path') ->
         build_maketx_cmd src' ocio_path' verbose' is_col' is_dsp' maketx_path' = cmd).
Proof.
  intros cmd. split; [|split; [|split; [|split]]].
  - apply build_maketx_cmd_layout.
  - unfold cmd, build_maketx_cmd.
    destruct verbose, is_dsp; cbv zeta; find_pair.
  - unfold cmd, build_maketx_cmd.
    destruct verbose, is_dsp, is_col; cbv zeta; find_pair.
  - intros is_col' is_dsp'. apply build_maketx_cmd_reads_flags.
  - intros src' ocio_path' verbose' is_col' is_dsp' maketx_path' H.
    injection H as <- <- <- <- <- <-. reflexivity.
Qed.

Lemma build_maketx_cmd_flags_witness :
  let src := mkPath false "/tex/" "rock_height.exr" in
  build_maketx_cmd src (Some "/cfg/aces.ocio") true false true "maketx"
  = ["maketx"; "/tex/rock_height.exr"; "--colorconfig"; "/cfg/aces.ocio";
     "--opaque-detect"; "--constant-color-detect"; "--monochrome-detect";
     "--fixnan"; "box3"; "-u"; "--filter"; "lanczos3";
     "--attrib"; "tiff:half"; "1"; "--unpremult"; "--oiio";
     "--colorconvert"; "Utility - Raw"; "ACES - ACEScg"; "-d"; "float";
     "-v"; "--threads"; "1"]
  /\ (false = false /\ true = true)
  /\ ~ build_maketx_cmd src (Some "/cfg/aces.ocio") true true true "maketx"
       = build_maketx_cmd src (Some "/cfg/aces.ocio") true false true "maketx".
Proof.
  intros src. split; [|split].
  - exact (proj1 (build_maketx_cmd_flags src (Some "/cfg/aces.ocio")
                    true false true "maketx")).
  - apply (proj1 (proj2 (proj2 (proj2
             (build_maketx_cmd_flags src (Some "/cfg/aces.ocio")
                true false true "maketx")))) false true).
    reflexivity.
  - intros H.
    apply (proj1 (proj2 (proj2 (proj2
             (build_maketx_cmd_flags src (Some "/cfg/aces.ocio")
                true false true "maketx")))) true true) in H.
    destruct H as [H _]. discriminate H.
Defined.

(* ------------------------------------------------------------------ *)
(** * Conversion runner *)

Lemma tx_suffixed_true (src : Path) :
  tx_suffixed src = true <-> Str.lower (suffix src) = ".tx".
Proof. unfold tx_suffixed. apply String.eqb_eq. Qed.

Lemma tx_suffixed_false (src : Path) :
  tx_suffixed src = false <-> Str.lower (suffix src) <> ".tx".
Proof. unfold tx_suffixed. apply String.eqb_neq. Qed.

Ltac unfold_convert :=
  unfold convert_one, convert_one_body, bind, lift, ret, subprocess_run, convert_cmd in *.

Lemma convert_one_already_tx env src ocio_path verbose maketx_path :
  tx_suffixed src = true ->
  convert_one env src ocio_path verbose maketx_path
  = ((src, false, "Already a .tx; skipping."), []).
Proof. intros H. unfold_convert. rewrite H. reflexivity. Qed.

Lemma convert_one_with_suffix_raises env src ocio_path verbose maketx_path e :
  tx_suffixed src = false ->
  with_suffix src (suffix src ^^ ".tx") = inl e ->
  convert_one env src ocio_path verbose maketx_path = (exception_outcome src e, []).
Proof. intros H1 H2. unfold_convert. rewrite H1, H2. reflexivity. Qed.

Lemma convert_one_staleness_raises env src ocio_path verbose maketx_path dst e :
  tx_suffixed src = false ->
  with_suffix src (suffix src ^^ ".tx") = inr dst ->
  needs_conversion env src dst = inl e ->
  convert_one env src ocio_path verbose maketx_path = (exception_outcome src e, []).
Proof. intros H1 H2 H3. unfold_convert. rewrite H1, H2. simpl. rewrite H3. reflexivity. Qed.

Lemma convert_one_up_to_date env src ocio_path verbose maketx_path dst :
  tx_suffixed src = false ->
  with_suffix src (suffix src ^^ ".tx") = inr dst ->
  needs_conversion env src dst = inr false ->
  convert_one env src ocio_path verbose maketx_path
  = ((src, false, "Up-to-date .tx exists: " ^^ name dst ^^ "; skipping."), []).
Proof. intros H1 H2 H3. unfold_convert. rewrite H1, H2. simpl. rewrite H3. reflexivity. Qed.

Lemma convert_one_spawn_raises env src ocio_path verbose maketx_path dst e :
  tx_suffixed src = false ->
  with_suffix src (suffix src ^^ ".tx") = inr dst ->
  needs_conversion env src dst = inr true ->
  run_child env (convert_cmd src ocio_path verbose maketx_path) = inl e ->
  convert_one env src ocio_path verbose maketx_path
  = (exception_outcome src e,
     [Spawned (convert_cmd src ocio_path verbose maketx_path) verbose]).
Proof.
  intros H1 H2 H3 H4. unfold_convert. rewrite H1, H2. simpl. rewrite H3. simpl.
  rewrite H4. reflexivity.
Qed.

Lemma strip_falsy (s : string) : Str.truthy s = false -> Str.strip s = EmptyString.
Proof. destruct s; [reflexivity | discriminate]. Qed.

Lemma convert_one_child_returns env src ocio_path verbose maketx_path dst c :
  tx_suffixed src = false ->
  with_suffix src (suffix src ^^ ".tx") = inr dst ->
  needs_conversion env src dst = inr true ->
  run_child env (convert_cmd src ocio_path verbose maketx_path) = inr c ->
  convert_one env src ocio_path verbose maketx_path
  = ((src,
      (child_returncode c =? 0)%Z,
      if (child_returncode c =? 0)%Z
      then success_message verbose (child_stdout c)
      else failure_message (child_stderr c)),
     [Spawned (convert_cmd src ocio_path verbose maketx_path) verbose]).
Proof.
  intros H1 H2 H3 H4. unfold_convert. rewrite H1, H2. simpl. rewrite H3. simpl.
  rewrite H4. cbn [returncode stdout stderr].
  destruct (child_returncode c =? 0)%Z.
  - unfold success_message. destruct verbose; simpl; [|reflexivity].
    destruct (Str.truthy (child_stdout c)) eqn:Ht.
    + reflexivity.
    + rewrite (strip_falsy _ Ht). reflexivity.
  - unfold failure_message.
    destruct (Str.truthy (child_stderr c)) eqn:Ht.
    + reflexivity.
    + rewrite (strip_falsy _ Ht). reflexivity.
Qed.

Lemma skip_marker_up_to_date (nm : string) :
  Str.contains "skip" (Str.lower ("Up-to-date .tx exists: " ^^ nm ^^ "; skipping.")) = true.
Proof.
  rewrite !lower_app. do 2 apply contains_app_r. reflexivity.
Qed.

(** C5.  For a source whose extension is ".tx" (in any letter case)
    [convert_one] starts no process and returns the skip outcome
    "Already a .tx; skipping." with success false; when
    [needs_conversion] answers false it starts no process and returns a
    skip outcome with the up-to-date message. *)
Theorem convert_one_skips_without_process (env : Env) (src : Path)
    (ocio_path : option string) (verbose : bool) (maketx_path : string) :
  (Str.lower (suffix src) = ".tx" ->
   convert_one env src ocio_path verbose maketx_path
   = ((src, false, "Already a .tx; skipping."), [])
   /\ kind_of (src, false, "Already a .tx; skipping.") = Skip)
  /\
  (forall dst,
      Str.lower (suffix src) <> ".tx" ->
      with_suffix src (suffix src ^^ ".tx") = inr dst ->
      needs_conversion env src dst = inr false ->
      convert_one env src ocio_path verbose maketx_path
      = ((src, false, "Up-to-date .tx exists: " ^^ name dst ^^ "; skipping."), [])
      /\ kind_of (src, false, "Up-to-date .tx exists: " ^^ name dst ^^ "; skipping.") = Skip).
Proof.
  split.
  - intros H. split; [|reflexivity].
    apply convert_one_already_tx. now apply tx_suffixed_true.
  - intros dst H1 H2 H3. split.
    + apply convert_one_up_to_date; [now apply tx_suffixed_false | exact H2 | exact H3].
    + unfold kind_of. now rewrite skip_marker_up_to_date.
Qed.

Lemma convert_one_skips_without_process_witness :
  convert_one (sample_env true (Some (7#1)) (7#1) no_child)
              (mkPath false "/tex/" "a.png.TX") None true "maketx"
  = ((mkPath false "/tex/" "a.png.TX", false, "Already a .tx; skipping."), [])
  /\ convert_one (sample_env true (Some (7#1)) (7#1) no_child) a_png None true "maketx"
     = ((a_png, false, "Up-to-date .tx exists: a.png.tx; skipping."), []).
Proof.
  split.
  - apply (proj1 (convert_one_skips_without_process
                    (sample_env true (Some (7#1)) (7#1) no_child)
                    (mkPath false "/tex/" "a.png.TX") None true "maketx")).
    reflexivity.
  - apply (proj2 (convert_one_skips_without_process
                    (sample_env true (Some (7#1)) (7#1) no_child)
                    a_png None true "maketx") a_png_tx).
    + discriminate.
    + reflexivity.
    + reflexivity.
Defined.

(** C6, as the code has it.  When the converter was started and came
    back, exit status zero gives a success outcome whose message is the
    captured standard output with surrounding white space stripped, if
    verbose mode is on and the stripped output is non-empty, and "OK"
    otherwise; a non-zero exit status gives a failure outcome whose
    message is "maketx failed: " followed by the stripped standard error,
    or by "Unknown error" when the stripped standard error is empty. *)
Theorem convert_one_process_result (env : Env) (src : Path)
    (ocio_path : option string) (verbose : bool) (maketx_path : string)
    (c : ChildResult) :
  reaches_process env src ocio_path verbose maketx_path c ->
  let cmd := convert_cmd src ocio_path verbose maketx_path in
  (child_returncode c = 0%Z ->
   convert_one env src ocio_path verbose maketx_path
   = ((src, true,
       if verbose && Str.truthy (Str.strip (child_stdout c))
       then Str.strip (child_stdout c) else "OK"),
      [Spawned cmd verbose]))
  /\
  (child_returncode c <> 0%Z ->
   convert_one env src ocio_path verbose maketx_path
   = ((src, false,
       "maketx failed: "
       ^^ (if Str.truthy (Str.strip (child_stderr c))
           then Str.strip (child_stderr c) else "Unknown error")),
      [Spawned cmd verbose])).
Proof.
  intros [dst [H1 [H2 [H3 H4]]]] cmd.
  rewrite (convert_one_child_returns _ _ _ _ _ _ _ H1 H2 H3 H4).
  split; intros Hrc.
  - rewrite Hrc. reflexivity.
  - apply Z.eqb_neq in Hrc. rewrite Hrc. reflexivity.
Qed.

Lemma convert_one_process_result_witness :
  convert_one (sample_env false (Some (7#1)) (7#1)
                 (inr {| child_returncode := 0;
                         child_stdout := "  wrote a.png.tx " ^^ newline;
                         child_stderr := EmptyString |}))
              a_png None true "maketx"
  = ((a_png, true, "wrote a.png.tx"),
     [Spawned (convert_cmd a_png None true "maketx") true]).
Proof.
  refine (proj1 (convert_one_process_result
                   (sample_env false (Some (7#1)) (7#1) _) a_png None true "maketx"
                   {| child_returncode := 0;
                      child_stdout := "  wrote a.png.tx " ^^ newline;
                      child_stderr := EmptyString |} _) _).
  - exists a_png_tx. repeat split; reflexivity.
  - reflexivity.
Defined.

(** C6, as stated, fails: with verbose mode on and a captured output
    that is a single newline the message is "OK", not that output. *)
Lemma verbose_stdout_is_stripped : ~ stdout_verbatim.
Proof.
  intros H.
  specialize (H (sample_env false (Some (7#1)) (7#1)
                   (inr {| child_returncode := 0;
                           child_stdout := newline;
                           child_stderr := EmptyString |}))
                a_png None "maketx"
                {| child_returncode := 0;
                   child_stdout := newline;
                   child_stderr := EmptyString |}).
  assert (Hr : message_of
                 (convert_one (sample_env false (Some (7#1)) (7#1)
                                 (inr {| child_returncode := 0;
                                         child_stdout := newline;
                                         child_stderr := EmptyString |}))
                              a_png None true "maketx") = "OK") by reflexivity.
  rewrite Hr in H. cbn [child_stdout child_returncode] in H.
  assert (Hbad : "OK" = newline).
  { apply H.
    - exists a_png_tx. repeat split; reflexivity.
    - reflexivity.
    - discriminate. }
  discriminate Hbad.
Qed.

(** C7.  Whatever raises inside [convert_one] is caught there: when the
    body of the [try] raises [e], the call returns the failure outcome
    with message "Exception: " followed by [str(e)].  This covers each
    place the body can raise: building the destination path, the
    existence test and the two [stat] calls of the staleness check, and
    starting the converter. *)
Theorem convert_one_catches (env : Env) (src : Path)
    (ocio_path : option string) (verbose : bool) (maketx_path : string) :
  (forall e t,
      convert_one_body env src ocio_path verbose maketx_path = (inl e, t) ->
      convert_one env src ocio_path verbose maketx_path = (exception_outcome src e, t))
  /\
  (forall e,
      tx_suffixed src = false ->
      with_suffix src (suffix src ^^ ".tx") = inl e ->
      convert_one env src ocio_path verbose maketx_path = (exception_outcome src e, []))
  /\
  (forall dst e,
      tx_suffixed src = false ->
      with_suffix src (suffix src ^^ ".tx") = inr dst ->
      (path_exists env (str dst) = inl e
       \/ (path_exists env (str dst) = inr true /\ path_stat env (str src) = inl e)
       \/ (path_exists env (str dst) = inr true
           /\ (exists ss, path_stat env (str src) = inr ss)
           /\ path_stat env (str dst) = inl e)) ->
      convert_one env src ocio_path verbose maketx_path = (exception_outcome src e, []))
  /\
  (forall dst e,
      tx_suffixed src = false ->
      with_suffix src (suffix src ^^ ".tx") = inr dst ->
      needs_conversion env src dst = inr true ->
      run_child env (convert_cmd src ocio_path verbose maketx_path) = inl e ->
      convert_one env src ocio_path verbose maketx_path
      = (exception_outcome src e,
         [Spawned (convert_cmd src ocio_path verbose maketx_path) verbose])).
Proof.
  split; [|split; [|split]].
  - intros e t H. unfold convert_one. rewrite H. reflexivity.
  - intros e. apply convert_one_with_suffix_raises.
  - intros dst e H1 H2 H3.
    apply (convert_one_staleness_raises _ _ _ _ _ dst); auto.
    unfold needs_conversion.
    destruct H3 as [-> | [[-> ->] | [-> [[ss ->] ->]]]]; reflexivity.
  - intros dst e. apply convert_one_spawn_raises.
Qed.

Lemma convert_one_catches_witness :
  convert_one (sample_env true None (7#1) no_child) a_png None false "maketx"
  = ((a_png, false,
      "Exception: [Errno 2] No such file or directory: '/tex/a.png'"), []).
Proof.
  refine (proj1 (proj2 (proj2 (convert_one_catches
                   (sample_env true None (7#1) no_child) a_png None false "maketx")))
            a_png_tx (OSError "[Errno 2] No such file or directory: '/tex/a.png'")
            _ _ _).
  - reflexivity.
  - reflexivity.
  - right. left. split; reflexivity.
Defined.

Lemma convert_one_source env src ocio_path verbose maketx_path :
  source_of (fst (convert_one env src ocio_path verbose maketx_path)) = src.
Proof.
  unfold_convert. unfold source_of.
  destruct (tx_suffixed src); simpl; [reflexivity|].
  destruct (with_suffix src (suffix src ^^ ".tx")) as [e|dst]; simpl; [reflexivity|].
  destruct (needs_conversion env src dst) as [e|[|]]; simpl; try reflexivity.
  destruct (run_child env _) as [e|c]; simpl; [reflexivity|].
  destruct (child_returncode c =? 0)%Z; reflexivity.
Qed.

(** The "Already a .tx" outcome comes from the first branch only. *)
Lemma convert_one_already_tx_inv env src ocio_path verbose maketx_path :
  fst (convert_one env src ocio_path verbose maketx_path)
  = (src, false, "Already a .tx; skipping.") ->
  tx_suffixed src = true.
Proof.
  unfold_convert.
  destruct (tx_suffixed src); simpl; [reflexivity|].
  destruct (with_suffix src (suffix src ^^ ".tx")) as [e|dst]; simpl; [discriminate|].
  destruct (needs_conversion env src dst) as [e|[|]]; simpl; try discriminate.
  destruct (run_child env _) as [e|c]; simpl; [discriminate|].
  destruct (child_returncode c =? 0)%Z; discriminate.
Qed.

(* ------------------------------------------------------------------ *)
(** * Batch orchestrator *)

Section Counting.

Lemma count_kind_cons (k : Kind) (o : Outcome) (l : list Outcome) :
  count_kind k (o :: l)
  = (match kind_of o, k with
     | Success, Success | Failure, Failure | Skip, Skip => 1
     | _, _ => 0
     end) + count_kind k l.
Proof.
  unfold count_kind. simpl. destruct (kind_of o), k; reflexivity.
Qed.

Lemma count_kind_partition (l : list Outcome) :
  count_kind Success l + count_kind Failure l + count_kind Skip l = List.length l.
Proof.
  induction l as [|o l IH]; [reflexivity|].
  rewrite !count_kind_cons. simpl. destruct (kind_of o); lia.
Qed.

Lemma count_kind_perm (k : Kind) (l l' : list Outcome) :
  Permutation l l' -> count_kind k l = count_kind k l'.
Proof.
  induction 1 as [|o l l' _ IH|a b l|l1 l2 l3 _ IH1 _ IH2].
  - reflexivity.
  - rewrite !count_kind_cons. now rewrite IH.
  - rewrite !count_kind_cons. lia.
  - now rewrite IH1.
Qed.

End Counting.

Section Drain.

Variable cancelled : nat -> bool.
Variable total : nat.

Lemma tally_one_spec (o : Outcome) (t : Tally) :
  ConvertWorker.tally_one o total t
  = (tally_after t [o], [item_done (line_of o); progress (done t + 1) total]).
Proof.
  destruct o as [[src success] message].
  unfold ConvertWorker.tally_one, tally_after, line_of, count_kind, kind_of. simpl.
  destruct success; simpl.
  - now rewrite Nat.add_0_r.
  - destruct (Str.contains "skip" (Str.lower message)); simpl;
      now rewrite ?Nat.add_0_r.
Qed.

Lemma tally_after_cons (o : Outcome) (l : list Outcome) (t : Tally) :
  tally_after (tally_after t [o]) l = tally_after t (o :: l).
Proof.
  unfold tally_after. cbn [done ok fail].
  rewrite (count_kind_cons Success o l), (count_kind_cons Failure o l),
    (count_kind_cons Success o []), (count_kind_cons Failure o []).
  change (count_kind Success []) with 0. change (count_kind Failure []) with 0.
  cbn [List.length]. f_equal; lia.
Qed.

(** The loop when the flag is clear at every iteration it makes. *)
Lemma drain_uncancelled (futs : list Outcome) (k : nat) (t : Tally) :
  (forall j, j < List.length futs -> cancelled (k + j) = false) ->
  ConvertWorker.drain cancelled k futs total t
  = (tally_after t futs, item_signals (done t) total futs).
Proof.
  revert k t. induction futs as [|o futs IH]; intros k t Hc.
  - simpl. unfold tally_after, count_kind. simpl. rewrite !Nat.add_0_r.
    now destruct t.
  - cbn [ConvertWorker.drain].
    assert (H0 : cancelled k = false).
    { rewrite <- (Nat.add_0_r k). apply Hc. simpl. lia. }
    rewrite H0, tally_one_spec.
    rewrite IH.
    + rewrite tally_after_cons. reflexivity.
    + intros j Hj. replace (S k + j) with (k + S j) by lia. apply Hc. simpl. lia.
Qed.

(** The loop when the flag is first seen set by iteration [k + n]. *)
Lemma drain_cancelled (futs : list Outcome) (n k : nat) (t : Tally) :
  n < List.length futs ->
  cancelled (k + n) = true ->
  (forall j, j < n -> cancelled (k + j) = false) ->
  ConvertWorker.drain cancelled k futs total t
  = (tally_after t (firstn n futs),
     item_signals (done t) total (firstn n futs) ++ [item_done LogCancel]).
Proof.
  revert n k t. induction futs as [|o futs IH]; intros n k t Hn Hset Hclear.
  - simpl in Hn. lia.
  - cbn [ConvertWorker.drain]. destruct n as [|n].
    + rewrite Nat.add_0_r in Hset. rewrite Hset. simpl.
      unfold tally_after, count_kind. simpl. rewrite !Nat.add_0_r.
      now destruct t.
    + assert (H0 : cancelled k = false).
      { rewrite <- (Nat.add_0_r k). apply Hclear. lia. }
      rewrite H0, tally_one_spec.
      rewrite (IH n (S k)).
      * rewrite tally_after_cons. reflexivity.
      * simpl in Hn. lia.
      * replace (S k + n) with (k + S n) by lia. exact Hset.
      * intros j Hj. replace (S k + j) with (k + S j) by lia. apply Hclear. lia.
Qed.

Lemma item_signals_last (l : list Outcome) (d : nat) :
  l <> [] -> In (progress (d + List.length l) total) (item_signals d total l).
Proof.
  revert d. induction l as [|o l IH]; intros d Hne; [contradiction|].
  destruct l as [|o' l].
  - simpl. right. left. reflexivity.
  - cbn [item_signals]. right. right.
    replace (d + List.length (o :: o' :: l)) with ((d + 1) + List.length (o' :: l))
      by (simpl; lia).
    apply IH. discriminate.
Qed.

(** The loop emits item and progress signals only. *)
Lemma drain_no_fatal (futs : list Outcome) (k : nat) (t : Tally) (msg : string) :
  ~ In (fatal msg) (snd (ConvertWorker.drain cancelled k futs total t)).
Proof.
  revert k t. induction futs as [|o futs IH]; intros k t; cbn [ConvertWorker.drain].
  - simpl. auto.
  - destruct (cancelled k).
    + simpl. intros [H|[]]. discriminate.
    + rewrite tally_one_spec.
      specialize (IH (S k) (tally_after t [o])).
      destruct (ConvertWorker.drain _ _ _ _ _) as [t' s'].
      cbn [snd] in *. intros [H|[H|H]]; try discriminate. exact (IH H).
Qed.

End Drain.

Section Pool.

Lemma flat_map_shift {A : Type} (f : nat -> list A) (l : list nat) :
  flat_map f (map S l) = flat_map (fun i => f (S i)) l.
Proof. induction l as [|i l IH]; simpl; [reflexivity | now rewrite IH]. Qed.

Lemma futures_in_order (futs : list Outcome) :
  flat_map (fun i => match nth_error futs i with
                     | Some o => [o]
                     | None => []
                     end) (seq 0 (List.length futs)) = futs.
Proof.
  induction futs as [|o futs IH]; [reflexivity|].
  cbn [List.length seq flat_map nth_error]. rewrite <- seq_shift, flat_map_shift.
  cbn [nth_error app]. now rewrite IH.
Qed.

(** When every submitted task completes once, [as_completed] yields
    each future once. *)
Lemma as_completed_perm (sch : Schedule) (futs : list Outcome) :
  Permutation (completion sch) (seq 0 (List.length futs)) ->
  Permutation (ConvertWorker.as_completed sch futs) futs.
Proof.
  intros H. unfold ConvertWorker.as_completed.
  pose proof (Permutation_flat_map
                (fun i => match nth_error futs i with
                          | Some o => [o]
                          | None => []
                          end) H) as Hp.
  now rewrite futures_in_order in Hp.
Qed.

Lemma as_completed_nil (sch : Schedule) : ConvertWorker.as_completed sch [] = [].
Proof.
  unfold ConvertWorker.as_completed.
  induction (completion sch) as [|i l IH]; [reflexivity|].
  simpl. destruct i; exact IH.
Qed.

Lemma submit_all_length task_env files ocio self :
  List.length (ConvertWorker.submit_all task_env files ocio self) = List.length files.
Proof.
  unfold ConvertWorker.submit_all.
  rewrite length_map, length_combine, length_seq. apply Nat.min_id.
Qed.

Lemma submit_all_sources task_env files ocio self :
  map source_of (map fst (ConvertWorker.submit_all task_env files ocio self)) = files.
Proof.
  unfold ConvertWorker.submit_all. rewrite !map_map.
  generalize 0 as k. induction files as [|p files IH]; intros k; [reflexivity|].
  cbn [List.length seq combine map fst snd].
  now rewrite convert_one_source, IH.
Qed.

(** A task starts at most one process, the command built for its source. *)
Lemma convert_one_events env src ocio_path verbose maketx_path :
  forall ev, In ev (snd (convert_one env src ocio_path verbose maketx_path)) ->
             ev = Spawned (convert_cmd src ocio_path verbose maketx_path) verbose.
Proof.
  intros ev. unfold_convert.
  destruct (tx_suffixed src); simpl; [contradiction|].
  destruct (with_suffix src (suffix src ^^ ".tx")) as [e|dst]; simpl; [contradiction|].
  destruct (needs_conversion env src dst) as [e|[|]]; simpl; try contradiction.
  destruct (run_child env _) as [e|c]; simpl.
  - intros [<-|[]]. reflexivity.
  - destruct (child_returncode c =? 0)%Z; simpl; intros [<-|[]]; reflexivity.
Qed.

Lemma submit_all_events task_env files ocio self ev :
  In ev (flat_map snd (ConvertWorker.submit_all task_env files ocio self)) ->
  exists p, In p files
            /\ ev = Spawned (convert_cmd p (Some ocio) (ConvertWorker.verbose self)
                                         (ConvertWorker.maketx_path self))
                            (ConvertWorker.verbose self).
Proof.
  unfold ConvertWorker.submit_all. rewrite in_flat_map.
  intros [r [Hr Hev]]. apply in_map_iff in Hr. destruct Hr as [[i p] [<- Hip]].
  exists p. split.
  - now apply in_combine_r in Hip.
  - now apply convert_one_events in Hev.
Qed.

Lemma colorconfig_in_cmd src ocio verbose is_col is_dsp maketx_path :
  Str.truthy ocio = true ->
  includes_pair "--colorconfig" ocio
    (build_maketx_cmd src (Some ocio) verbose is_col is_dsp maketx_path).
Proof.
  intros H. unfold build_maketx_cmd. rewrite H.
  destruct verbose, is_dsp, is_col; cbv zeta; find_pair.
Qed.

End Pool.

Section Run.

Variables (env : Env) (task_env : nat -> Env) (sch : Schedule) (self : ConvertWorker.t).

(** The two ways a call of [run] ends: stopped before the pool exists,
    with at most one signal, a fatal one; or with every enumerated file
    submitted and the loop drained. *)
Lemma run_cases :
  let r := ConvertWorker.run env task_env sch self in
  (submitted r = [] /\ task_results r = []
   /\ (signals r = [] \/ exists msg, signals r = [fatal msg]))
  \/
  (exists ocio files,
      ConvertWorker.maketx_missing env self = inr false
      /\ ConvertWorker.resolve_ocio env self = inr (inr ocio)
      /\ ConvertWorker.enumerate env self = inr files
      /\ files <> []
      /\ submitted r = files
      /\ task_results r = ConvertWorker.submit_all task_env files ocio self
      /\ raised r = None
      /\ exists w,
          let d := ConvertWorker.drain (cancelled_at sch) 0
                     (ConvertWorker.as_completed sch
                        (map fst (ConvertWorker.submit_all task_env files ocio self)))
                     (List.length files) (mkTally 0 0 0) in
          signals r = item_done (LogFound (List.length files) w)
                      :: snd d ++ [finished (ok (fst d)) (fail (fst d))]).
Proof.
  unfold ConvertWorker.run.
  destruct (ConvertWorker.maketx_missing env self) as [e|[|]];
    [left; simpl; auto | left; simpl; eauto |].
  destruct (ConvertWorker.resolve_ocio env self) as [e|[msg|ocio]];
    [left; simpl; auto | left; simpl; eauto |].
  destruct (ConvertWorker.enumerate env self) as [e|files];
    [left; simpl; eauto |].
  destruct (List.length files =? 0) eqn:Hlen; [left; simpl; eauto |].
  right. exists ocio, files.
  destruct (ConvertWorker.drain _ _ _ _ _) as [t sigs] eqn:Hd.
  cbn [signals submitted task_results raised fst snd].
  repeat split; auto.
  - intros ->. discriminate.
  - eexists. reflexivity.
Qed.

(** The resolution of the colour configuration decides how [run] goes on. *)
Lemma run_ocio_fatal (msg : string) :
  ConvertWorker.maketx_missing env self = inr false ->
  ConvertWorker.resolve_ocio env self = inr (inl msg) ->
  ConvertWorker.run env task_env sch self = ConvertWorker.stopped [fatal msg] None.
Proof. intros H1 H2. unfold ConvertWorker.run. now rewrite H1, H2. Qed.

Lemma run_ocio_used (ocio : string) :
  ConvertWorker.resolve_ocio env self = inr (inr ocio) ->
  Str.truthy ocio = true ->
  forall ev, In ev (processes (ConvertWorker.run env task_env sch self)) ->
             includes_pair "--colorconfig" ocio (spawn_cmd ev).
Proof.
  intros Hres Ht ev. unfold processes.
  destruct run_cases as [[_ [-> _]]|[ocio' [files [_ [Hres' [_ [_ [_ [-> _]]]]]]]]].
  - contradiction.
  - rewrite Hres in Hres'. injection Hres' as <-.
    intros Hev. apply submit_all_events in Hev. destruct Hev as [p [_ ->]].
    apply colorconfig_in_cmd. exact Ht.
Qed.

End Run.

Lemma run_tasks_any_schedule env task_env sch sch' self :
  task_results (ConvertWorker.run env task_env sch self)
  = task_results (ConvertWorker.run env task_env sch' self)
  /\ submitted (ConvertWorker.run env task_env sch self)
     = submitted (ConvertWorker.run env task_env sch' self).
Proof.
  unfold ConvertWorker.run.
  destruct (ConvertWorker.maketx_missing env self) as [e|[|]]; auto.
  destruct (ConvertWorker.resolve_ocio env self) as [e|[msg|ocio]]; auto.
  destruct (ConvertWorker.enumerate env self) as [e|files]; auto.
  destruct (List.length files =? 0); auto.
  do 2 destruct (ConvertWorker.drain _ _ _ _ _). auto.
Qed.

(** C1.  In a run whose cancellation flag is never set and in which
    every submitted task completes once, there is one outcome per
    enumerated file, carrying that file as its source; each outcome is
    tallied exactly once; the counters reach (N, successes, failures);
    and successes + failures + skips = N, an unsuccessful outcome being a
    skip exactly when its lower-cased message contains "skip". *)
Theorem run_tallies_every_file (env : Env) (task_env : nat -> Env)
    (sch : Schedule) (self : ConvertWorker.t) :
  let r := ConvertWorker.run env task_env sch self in
  let N := List.length (submitted r) in
  Permutation (completion sch) (seq 0 N) ->
  (forall k, cancelled_at sch k = false) ->
  map source_of (outcomes r) = submitted r
  /\ (exists tallied,
         Permutation tallied (outcomes r)
         /\ (N <> 0 ->
             (exists w,
                 signals r
                 = item_done (LogFound N w) :: item_signals 0 N tallied
                   ++ [finished (count_kind Success (outcomes r))
                                (count_kind Failure (outcomes r))])
             /\ In (progress N N) (signals r)))
  /\ count_kind Success (outcomes r) + count_kind Failure (outcomes r)
     + count_kind Skip (outcomes r) = N.
Proof.
  intros r N Hperm Hflag. subst N. unfold outcomes.
  destruct (run_cases env task_env sch self)
    as [[Hs [Ht _]] | [ocio [files [_ [_ [_ [Hne [Hs [Ht [_ [w Hsig]]]]]]]]]]];
    fold r in Hs, Ht; try fold r in Hsig; rewrite Hs in *; rewrite Ht in *.
  - split; [reflexivity|]. split; [|reflexivity].
    exists []. split; [constructor | intros H; now elim H].
  - set (outs := map fst (ConvertWorker.submit_all task_env files ocio self)) in *.
    assert (Hlen : List.length outs = List.length files).
    { unfold outs. now rewrite length_map, submit_all_length. }
    assert (Hp : Permutation (ConvertWorker.as_completed sch outs) outs).
    { apply as_completed_perm. now rewrite Hlen. }
    split; [apply submit_all_sources|]. split.
    + exists (ConvertWorker.as_completed sch outs). split; [exact Hp|].
      intros _. cbv zeta in Hsig.
      rewrite drain_uncancelled in Hsig by (intros; apply Hflag).
      cbn [fst snd tally_after ok fail done] in Hsig.
      rewrite !(count_kind_perm _ _ _ Hp) in Hsig.
      split; [exists w; exact Hsig|].
      rewrite Hsig. right. apply in_or_app. left.
      rewrite <- Hlen at 1. rewrite <- (Permutation_length Hp).
      apply (item_signals_last _ _ 0).
      intros Hnil. rewrite Hnil in Hp. apply Permutation_nil in Hp.
      rewrite Hp in Hlen. destruct files; [now apply Hne | discriminate].
    + rewrite count_kind_partition. exact Hlen.
Qed.

(** C9.  When the flag is first seen set by the iteration for the
    (k+1)-th completed task, the loop stops there: only the first k
    completed outcomes were tallied, the cancellation line and the final
    tally of those k outcomes follow, and nothing more is emitted; the
    tasks themselves are those of the uncancelled run, every one of them
    having run to its end. *)
Theorem run_cancelled_early (env : Env) (task_env : nat -> Env)
    (sch : Schedule) (self : ConvertWorker.t) (k : nat) :
  let r := ConvertWorker.run env task_env sch self in
  let N := List.length (submitted r) in
  let futs := ConvertWorker.as_completed sch (outcomes r) in
  k < List.length futs ->
  cancelled_at sch k = true ->
  (forall j, j < k -> cancelled_at sch j = false) ->
  let seen := firstn k futs in
  (exists w,
      signals r
      = item_done (LogFound N w) :: item_signals 0 N seen
        ++ [item_done LogCancel;
            finished (count_kind Success seen) (count_kind Failure seen)])
  /\ task_results r
     = task_results (ConvertWorker.run env task_env (uncancelled sch) self)
  /\ List.length (task_results r) = N.
Proof.
  intros r N futs Hk Hset Hclear seen. subst N seen futs. unfold outcomes in *.
  split; [|split].
  - destruct (run_cases env task_env sch self)
      as [[Hs [Ht _]] | [ocio [files [_ [_ [_ [Hne [Hs [Ht [_ [w Hsig]]]]]]]]]]];
      fold r in Hs, Ht; try fold r in Hsig; rewrite Hs in *; rewrite Ht in *.
    + simpl in Hk. rewrite as_completed_nil in Hk. simpl in Hk. lia.
    + exists w. cbv zeta in Hsig.
      rewrite (drain_cancelled _ _ _ k 0) in Hsig by auto.
      cbn [fst snd tally_after ok fail done] in Hsig.
      rewrite Hsig, <- app_assoc. reflexivity.
  - apply run_tasks_any_schedule.
  - destruct (run_cases env task_env sch self)
      as [[Hs [Ht _]] | [ocio [files [_ [_ [_ [_ [Hs [Ht _]]]]]]]]];
      fold r in Hs, Ht; rewrite Hs, Ht; [reflexivity | apply submit_all_length].
Qed.

Lemma run_tallies_every_file_witness :
  let r := ConvertWorker.run sample_batch (fun _ => sample_batch)
             (uncancelled (sample_schedule 1)) (sample_worker None) in
  count_kind Success (outcomes r) + count_kind Failure (outcomes r)
  + count_kind Skip (outcomes r) = 2.
Proof.
  intros r.
  refine (proj2 (proj2 (run_tallies_every_file sample_batch (fun _ => sample_batch)
                          (uncancelled (sample_schedule 1)) (sample_worker None) _ _))).
  - vm_compute. apply perm_swap.
  - intros k. reflexivity.
Defined.

Lemma run_cancelled_early_witness :
  let r := ConvertWorker.run sample_batch (fun _ => sample_batch)
             (sample_schedule 1) (sample_worker None) in
  (exists w,
      signals r
      = [item_done (LogFound 2 w); item_done (LogOk "b_disp.EXR" "OK"); progress 1 2;
         item_done LogCancel; finished 1 0])
  /\ List.length (task_results r) = 2.
Proof.
  intros r.
  pose proof (run_cancelled_early sample_batch (fun _ => sample_batch)
                (sample_schedule 1) (sample_worker None) 1) as H.
  cbv zeta in H.
  destruct H as [H1 [_ H3]].
  - vm_compute. lia.
  - reflexivity.
  - intros j Hj. assert (j = 0) as -> by lia. reflexivity.
  - split; [exact H1 | exact H3].
Defined.

Section Enumeration.

Variables (env : Env) (self : ConvertWorker.t).

Lemma keep_valid_ext (p : Path) :
  ConvertWorker.keep env self p = inr true ->
  In (Str.lower (suffix p)) VALID_EXTS.
Proof.
  unfold ConvertWorker.keep.
  destruct (path_is_file env (str p)) as [e|isf]; [discriminate|].
  destruct (Str.mem (Str.lower (suffix p)) VALID_EXTS) eqn:Hm.
  - intros _. now apply mem_spec.
  - rewrite andb_false_r. discriminate.
Qed.

Lemma collect_kept (listing files : list Path) :
  ConvertWorker.collect env self listing = inr files ->
  forall p, In p files -> In p listing /\ ConvertWorker.keep env self p = inr true.
Proof.
  revert files. induction listing as [|q listing IH]; intros files; simpl.
  - intros H. injection H as <-. contradiction.
  - destruct (ConvertWorker.keep env self q) as [e|k] eqn:Hk; [discriminate|].
    destruct (ConvertWorker.collect env self listing) as [e|rest]; [discriminate|].
    intros H. injection H as <-. intros p Hp.
    destruct k.
    + destruct Hp as [<-|Hp]; [auto|].
      destruct (IH rest eq_refl p Hp). auto.
    + destruct (IH rest eq_refl p Hp). auto.
Qed.

Lemma enumerate_valid_ext (files : list Path) :
  ConvertWorker.enumerate env self = inr files ->
  forall p, In p files -> In (Str.lower (suffix p)) VALID_EXTS.
Proof.
  unfold ConvertWorker.enumerate.
  destruct (if ConvertWorker.recursive self then _ else _) as [e|listing];
    [discriminate|].
  intros H p Hp. apply keep_valid_ext.
  exact (proj2 (collect_kept _ _ H p Hp)).
Qed.

End Enumeration.

Lemma tx_not_valid_ext : ~ In ".tx" VALID_EXTS.
Proof. simpl. intuition discriminate. Qed.

(** C10.  ".tx" is not a recognised extension; every file [run] submits
    has a lower-cased extension among the recognised ones, hence not
    ".tx", and no task started for it can return the "Already a .tx"
    outcome.  That outcome is returned exactly for sources whose
    extension is ".tx", which only a direct call can supply. *)
Theorem submitted_never_tx (env : Env) (task_env : nat -> Env)
    (sch : Schedule) (self : ConvertWorker.t) :
  ~ In ".tx" VALID_EXTS
  /\ (forall p,
         In p (submitted (ConvertWorker.run env task_env sch self)) ->
         In (Str.lower (suffix p)) VALID_EXTS
         /\ Str.lower (suffix p) <> ".tx"
         /\ forall env' ocio_path verbose maketx_path,
             fst (convert_one env' p ocio_path verbose maketx_path)
             <> (p, false, "Already a .tx; skipping."))
  /\ (forall env' src ocio_path verbose maketx_path,
         fst (convert_one env' src ocio_path verbose maketx_path)
         = (src, false, "Already a .tx; skipping.")
         <-> Str.lower (suffix src) = ".tx").
Proof.
  split; [exact tx_not_valid_ext|]. split.
  - intros p Hp.
    assert (Hv : In (Str.lower (suffix p)) VALID_EXTS).
    { destruct (run_cases env task_env sch self)
        as [[Hs _] | [ocio [files [_ [_ [He [_ [Hs _]]]]]]]]; rewrite Hs in Hp.
      - contradiction.
      - exact (enumerate_valid_ext _ _ _ He p Hp). }
    assert (Hn : Str.lower (suffix p) <> ".tx").
    { intros Heq. rewrite Heq in Hv. exact (tx_not_valid_ext Hv). }
    split; [exact Hv|]. split; [exact Hn|].
    intros env' ocio_path verbose maketx_path Hfire.
    apply convert_one_already_tx_inv, tx_suffixed_true in Hfire. exact (Hn Hfire).
  - intros env' src ocio_path verbose maketx_path. split.
    + intros H. apply tx_suffixed_true. exact (convert_one_already_tx_inv _ _ _ _ _ H).
    + intros H. apply tx_suffixed_true in H.
      now rewrite convert_one_already_tx.
Qed.

Lemma submitted_never_tx_witness :
  In (Str.lower (suffix (tex "b_disp.EXR"))) VALID_EXTS
  /\ Str.lower (suffix (tex "b_disp.EXR")) <> ".tx"
  /\ forall env' ocio_path verbose maketx_path,
      fst (convert_one env' (tex "b_disp.EXR") ocio_path verbose maketx_path)
      <> (tex "b_disp.EXR", false, "Already a .tx; skipping.").
Proof.
  apply (proj1 (proj2 (submitted_never_tx sample_batch (fun _ => sample_batch)
                         (sample_schedule 1) (sample_worker None)))).
  vm_compute. right. left. reflexivity.
Defined.

(** C8, as the code has it.  Once the converter path has passed its
    check, [run] settles the colour configuration before it lists or
    submits anything.  A configuration path given to the worker is used
    whatever $OCIO says, and when it is not an existing regular file
    ([is_file()]) the run ends with the fatal signal "OCIO file not
    found".  Without one, $OCIO decides: unset or blank ends the run with
    "No OCIO specified and $OCIO is not set.", a value at which nothing
    exists ([exists()]) ends it with "$OCIO points to non-existent file",
    two different messages; a value at which something exists is taken
    as the configuration, whatever kind of file it is.  Whenever a fatal
    signal is emitted it is the only signal and no task was submitted. *)
Theorem run_color_config (env : Env) (task_env : nat -> Env)
    (sch : Schedule) (self : ConvertWorker.t) :
  let r := ConvertWorker.run env task_env sch self in
  let env_ocio := Str.strip (match environ_OCIO env with
                             | Some v => v
                             | None => EmptyString
                             end) in
  (ConvertWorker.maketx_missing env self = inr false ->
   forall f,
     ConvertWorker.ocio_file self = Some f -> f <> EmptyString ->
     (path_is_file env f = inr false ->
      signals r = [fatal ("OCIO file not found: " ^^ f)]
      /\ submitted r = [] /\ task_results r = [])
     /\ (path_is_file env f = inr true ->
         forall ev, In ev (processes r) -> includes_pair "--colorconfig" f (spawn_cmd ev)))
  /\
  (ConvertWorker.maketx_missing env self = inr false ->
   ConvertWorker.ocio_file self = None \/ ConvertWorker.ocio_file self = Some EmptyString ->
   (env_ocio = EmptyString ->
    signals r = [fatal "No OCIO specified and $OCIO is not set."]
    /\ submitted r = [] /\ task_results r = [])
   /\ (env_ocio <> EmptyString -> path_exists env env_ocio = inr false ->
       signals r = [fatal ("$OCIO points to non-existent file: " ^^ env_ocio)]
       /\ submitted r = [] /\ task_results r = [])
   /\ (env_ocio <> EmptyString -> path_exists env env_ocio = inr true ->
       ConvertWorker.resolve_ocio env self = inr (inr env_ocio)
       /\ forall ev, In ev (processes r) ->
                     includes_pair "--colorconfig" env_ocio (spawn_cmd ev))
   /\ "No OCIO specified and $OCIO is not set."
      <> "$OCIO points to non-existent file: " ^^ env_ocio)
  /\
  (forall msg, In (fatal msg) (signals r) ->
               signals r = [fatal msg] /\ submitted r = [] /\ task_results r = []).
Proof.
  intros r env_ocio. split; [|split].
  - intros Hm f Hf Hne.
    assert (Ht : Str.truthy f = true) by (destruct f; [now elim Hne | reflexivity]).
    split.
    + intros Hfile. unfold r.
      rewrite (run_ocio_fatal env task_env sch self ("OCIO file not found: " ^^ f) Hm).
      * auto.
      * unfold ConvertWorker.resolve_ocio. rewrite Hf. cbn [opt_truthy].
        now rewrite Ht, Hfile.
    + intros Hfile. apply run_ocio_used; [|exact Ht].
      unfold ConvertWorker.resolve_ocio. rewrite Hf. cbn [opt_truthy].
      now rewrite Ht, Hfile.
  - intros Hm Hnone.
    assert (Hf : opt_truthy (ConvertWorker.ocio_file self) = false)
      by (destruct Hnone as [-> | ->]; reflexivity).
    split; [|split; [|split]].
    + intros Hblank. unfold r.
      rewrite (run_ocio_fatal env task_env sch self
                 "No OCIO specified and $OCIO is not set." Hm).
      * auto.
      * unfold ConvertWorker.resolve_ocio. rewrite Hf. fold env_ocio.
        now rewrite Hblank.
    + intros Hset Hex.
      assert (Ht : Str.truthy env_ocio = true)
        by (destruct env_ocio; [now elim Hset | reflexivity]).
      unfold r.
      rewrite (run_ocio_fatal env task_env sch self
                 ("$OCIO points to non-existent file: " ^^ env_ocio) Hm).
      * auto.
      * unfold ConvertWorker.resolve_ocio. rewrite Hf. fold env_ocio.
        now rewrite Ht, Hex.
    + intros Hset Hex.
      assert (Ht : Str.truthy env_ocio = true)
        by (destruct env_ocio; [now elim Hset | reflexivity]).
      assert (Hres : ConvertWorker.resolve_ocio env self = inr (inr env_ocio)).
      { unfold ConvertWorker.resolve_ocio. rewrite Hf. fold env_ocio.
        now rewrite Ht, Hex. }
      split; [exact Hres|].
      apply run_ocio_used; [exact Hres | exact Ht].
    + discriminate.
  - intros msg Hin.
    destruct (run_cases env task_env sch self)
      as [[Hs [Ht [Hsig|[msg' Hsig]]]] | [ocio [files [_ [_ [_ [_ [_ [_ [_ [w Hsig]]]]]]]]]]];
      fold r in Hsig; try fold r in Hs, Ht; rewrite Hsig in Hin.
    + contradiction.
    + destruct Hin as [Heq|[]]. injection Heq as ->. auto.
    + exfalso. cbv zeta in Hin. destruct Hin as [Heq|Hin]; [discriminate|].
      apply in_app_or in Hin. destruct Hin as [Hin|[Heq|[]]]; [|discriminate].
      exact (drain_no_fatal _ _ _ _ _ _ Hin).
Qed.

Lemma run_color_config_witness :
  let r := ConvertWorker.run sample_batch (fun _ => sample_batch)
             (sample_schedule 1) (sample_worker (Some "/cfg/missing.ocio")) in
  signals r = [fatal "OCIO file not found: /cfg/missing.ocio"]
  /\ submitted r = [] /\ task_results r = [].
Proof.
  intros r.
  refine (proj1 (proj1 (run_color_config sample_batch (fun _ => sample_batch)
                          (sample_schedule 1)
                          (sample_worker (Some "/cfg/missing.ocio")))
                   _ "/cfg/missing.ocio" _ _) _).
  - reflexivity.
  - reflexivity.
  - discriminate.
  - reflexivity.
Defined.

(** C8, as stated, fails: with no configuration path given and $OCIO
    naming the directory "/cfg", which exists and is not a regular file,
    the run is not stopped; both enumerated files are submitted. *)
Lemma ocio_directory_is_accepted : ~ fallback_must_be_file.
Proof.
  intros H.
  specialize (H (dir_env (Some "/cfg") sample_listing child_ok)
                (fun _ => sample_batch) (sample_schedule 2) (sample_worker None)
                "/cfg").
  assert (Hs : submitted (ConvertWorker.run
                            (dir_env (Some "/cfg") sample_listing child_ok)
                            (fun _ => sample_batch) (sample_schedule 2)
                            (sample_worker None))
               = [tex "a.png"; tex "b_disp.EXR"]) by reflexivity.
  rewrite Hs in H.
  assert (Hbad : [tex "a.png"; tex "b_disp.EXR"] = []).
  { apply H; reflexivity. }
  discriminate Hbad.
Qed.

(* ------------------------------------------------------------------ *)
(** * Further properties of the command builder and the runner *)

(** X1.  The argument list starts with the converter path and the source
    path and ends with "--threads", "1"; "--colorconfig" and its value
    come right after the source path exactly when a non-empty
    configuration path is given ([None] and the empty string add
    nothing); "-v" stands right before "--threads" when verbose; the list
    has 22 entries, plus 2 with a configuration, plus 1 when verbose. *)
Theorem build_maketx_cmd_frame (src : Path) (ocio_path : option string)
    (verbose is_col is_dsp : bool) (maketx_path : string) :
  let cmd := build_maketx_cmd src ocio_path verbose is_col is_dsp maketx_path in
  firstn 2 cmd = [maketx_path; str src]
  /\ firstn 2 (rev cmd) = ["1"; "--threads"]
  /\ List.length cmd
     = 22 + (if opt_truthy ocio_path then 2 else 0) + (if verbose then 1 else 0)
  /\ (if opt_truthy ocio_path
      then nth_error cmd 2 = Some "--colorconfig" /\ nth_error cmd 3 = ocio_path
      else nth_error cmd 2 = Some "--opaque-detect")
  /\ nth_error (rev cmd) 2
     = Some (if verbose then "-v" else if is_dsp then "float" else "half").
Proof.
  unfold build_maketx_cmd.
  destruct ocio_path as [[|a o]|], verbose, is_col, is_dsp; cbv zeta;
    repeat split; reflexivity.
Qed.

Lemma cmd_role_pairs (src : Path) (ocio_path : option string)
    (verbose is_col is_dsp : bool) (maketx_path : string) :
  includes_pair "-d" (if is_dsp then "float" else "half")
    (build_maketx_cmd src ocio_path verbose is_col is_dsp maketx_path)
  /\ includes_pair (if is_col then "Utility - sRGB - Texture" else "Utility - Raw")
       "ACES - ACEScg"
       (build_maketx_cmd src ocio_path verbose is_col is_dsp maketx_path).
Proof.
  unfold build_maketx_cmd.
  split; destruct verbose, is_dsp, is_col; cbv zeta; find_pair.
Qed.

(** X2.  Whatever command [convert_one] hands to [subprocess.run], it
    captures standard output exactly in verbose mode, and the command is
    the layout with one transform and one depth, chosen by the source's
    name alone: for a displacement name "Utility - Raw" and "float",
    otherwise "half" with "Utility - sRGB - Texture" when the name
    carries a colour tag and "Utility - Raw" when it does not.  No other
    transform or depth gives that command: it asks for the sRGB transform
    exactly when the name is a colour name and not a displacement name,
    and for full float exactly when it is a displacement name. *)
Theorem convert_one_command_by_role (env : Env) (src : Path)
    (ocio_path : option string) (verbose : bool) (maketx_path : string)
    (ev : Event) :
  In ev (snd (convert_one env src ocio_path verbose maketx_path)) ->
  let has_colour_tag :=
    existsb (fun tag => Str.contains tag (Str.lower (name src))) COLOR_TAGS in
  let transform :=
    if is_displacement src then "Utility - Raw"
    else if has_colour_tag then "Utility - sRGB - Texture" else "Utility - Raw" in
  let depth := if is_displacement src then "float" else "half" in
  let layout := cmd_layout src ocio_path verbose maketx_path in
  spawn_capture ev = verbose
  /\ (is_displacement src = true ->
      includes_pair "-d" "float" (spawn_cmd ev)
      /\ includes_pair "Utility - Raw" "ACES - ACEScg" (spawn_cmd ev))
  /\ (is_displacement src = false ->
      includes_pair "-d" "half" (spawn_cmd ev)
      /\ includes_pair (if has_colour_tag
                        then "Utility - sRGB - Texture" else "Utility - Raw")
                       "ACES - ACEScg" (spawn_cmd ev))
  /\ spawn_cmd ev = layout transform depth
  /\ (forall t d, spawn_cmd ev = layout t d -> t = transform /\ d = depth)
  /\ ((exists d, spawn_cmd ev = layout "Utility - sRGB - Texture" d)
      <-> is_displacement src = false /\ has_colour_tag = true)
  /\ ((exists t, spawn_cmd ev = layout t "float")
      <-> is_displacement src = true).
Proof.
  intros Hev has_colour_tag transform depth layout.
  apply convert_one_events in Hev. subst ev. cbn [spawn_capture spawn_cmd].
  split; [reflexivity|].
  assert (Hlay : convert_cmd src ocio_path verbose maketx_path = layout transform depth).
  { unfold convert_cmd. rewrite build_maketx_cmd_layout.
    unfold layout, transform, depth, transform_for, depth_for, is_color.
    fold has_colour_tag.
    destruct (is_displacement src), has_colour_tag; reflexivity. }
  assert (Huniq : forall t d,
             convert_cmd src ocio_path verbose maketx_path = layout t d ->
             t = transform /\ d = depth).
  { intros t d H. rewrite Hlay in H. symmetry in H.
    apply cmd_layout_inj in H. destruct H; auto. }
  split; [|split; [|split; [exact Hlay | split; [exact Huniq | split]]]].
  - intros Hdsp. unfold convert_cmd.
    pose proof (cmd_role_pairs src ocio_path verbose (is_color src)
                  (is_displacement src) maketx_path) as [Hd Hc].
    unfold is_color in *. rewrite Hdsp in *. cbv iota in *. split; assumption.
  - intros Hdsp. unfold convert_cmd.
    pose proof (cmd_role_pairs src ocio_path verbose (is_color src)
                  (is_displacement src) maketx_path) as [Hd Hc].
    unfold is_color in *. fold has_colour_tag in Hc.
    rewrite Hdsp in *. cbv iota in *. split; assumption.
  - split.
    + intros [d H]. apply Huniq in H. destruct H as [Ht _].
      unfold transform in Ht.
      destruct (is_displacement src); [discriminate Ht|].
      destruct has_colour_tag; [auto | discriminate Ht].
    + intros [Hdsp Hcol]. exists depth. rewrite Hlay.
      unfold transform. now rewrite Hdsp, Hcol.
  - split.
    + intros [t H]. apply Huniq in H. destruct H as [_ Hd].
      unfold depth in Hd.
      destruct (is_displacement src); [reflexivity | discriminate Hd].
    + intros Hdsp. exists transform. rewrite Hlay.
      unfold depth. now rewrite Hdsp.
Qed.

Lemma convert_one_command_by_role_witness :
  let cmd := convert_cmd (tex "Rock_HEIGHT_color.exr") None false "maketx" in
  includes_pair "-d" "float" cmd /\ includes_pair "Utility - Raw" "ACES - ACEScg" cmd.
Proof.
  intros cmd.
  refine (proj1 (proj2 (convert_one_command_by_role
                          (sample_env false (Some (7#1)) (7#1) child_ok)
                          (tex "Rock_HEIGHT_color.exr") None false "maketx"
                          (Spawned cmd false) _)) _).
  - left. reflexivity.
  - reflexivity.
Defined.

Ltac no_spawn :=
  split; [simpl; lia
         | split; [split; [intros H; now elim H | ] | intros H; now elim H]].

(** X3.  [convert_one] calls [subprocess.run] at most once.  It calls it
    exactly when the source is not a ".tx", the destination path could be
    formed and [needs_conversion] returned True; the call then carries the
    command built for the source. *)
Theorem convert_one_spawns_once (env : Env) (src : Path)
    (ocio_path : option string) (verbose : bool) (maketx_path : string) :
  let evs := snd (convert_one env src ocio_path verbose maketx_path) in
  List.length evs <= 1
  /\ (evs <> [] <->
      tx_suffixed src = false
      /\ exists dst, with_suffix src (suffix src ^^ ".tx") = inr dst
                     /\ needs_conversion env src dst = inr true)
  /\ (evs <> [] ->
      evs = [Spawned (convert_cmd src ocio_path verbose maketx_path) verbose]).
Proof.
  unfold_convert.
  destruct (tx_suffixed src) eqn:Htx; simpl.
  { no_spawn. intros [H1 _]. discriminate. }
  destruct (with_suffix src (suffix src ^^ ".tx")) as [e|dst] eqn:Hw; simpl.
  { no_spawn. intros [_ [d [H2 _]]]. discriminate. }
  destruct (needs_conversion env src dst) as [e|[|]] eqn:Hn; simpl.
  - no_spawn. intros [_ [d [H2 H3]]]. congruence.
  - destruct (run_child env _) as [e|c]; simpl;
      [|destruct (child_returncode c =? 0)%Z; simpl];
      (split; [lia|]; split;
       [split; [intros _; split; [reflexivity | exists dst; auto] | discriminate]
       | reflexivity]).
  - no_spawn. intros [_ [d [H2 H3]]]. congruence.
Qed.

Lemma convert_one_spawns_once_witness :
  snd (convert_one (sample_env false (Some (7#1)) (7#1) child_ok) a_png None true "maketx")
  = [Spawned (convert_cmd a_png None true "maketx") true].
Proof.
  apply (proj2 (proj2 (convert_one_spawns_once
                         (sample_env false (Some (7#1)) (7#1) child_ok)
                         a_png None true "maketx"))).
  discriminate.
Defined.

(** X4.  [convert_one] reports success exactly when the converter was
    run and came back with exit status 0. *)
Theorem convert_one_success_iff (env : Env) (src : Path)
    (ocio_path : option string) (verbose : bool) (maketx_path : string) :
  success_of (convert_one env src ocio_path verbose maketx_path) = true
  <-> exists c, reaches_process env src ocio_path verbose maketx_path c
                /\ child_returncode c = 0%Z.
Proof.
  split.
  - unfold reaches_process.
    destruct (tx_suffixed src) eqn:Htx.
    { rewrite convert_one_already_tx by exact Htx. discriminate. }
    destruct (with_suffix src (suffix src ^^ ".tx")) as [e|dst] eqn:Hw.
    { rewrite (convert_one_with_suffix_raises _ _ _ _ _ e Htx Hw). discriminate. }
    destruct (needs_conversion env src dst) as [e|[|]] eqn:Hn.
    + rewrite (convert_one_staleness_raises _ _ _ _ _ dst e Htx Hw Hn). discriminate.
    + destruct (run_child env (convert_cmd src ocio_path verbose maketx_path))
        as [e|c] eqn:Hr.
      * rewrite (convert_one_spawn_raises _ _ _ _ _ dst e Htx Hw Hn Hr). discriminate.
      * rewrite (convert_one_child_returns _ _ _ _ _ dst c Htx Hw Hn Hr).
        unfold success_of. cbn [fst snd]. intros Hz.
        exists c. split; [exists dst; auto | now apply Z.eqb_eq].
    + rewrite (convert_one_up_to_date _ _ _ _ _ dst Htx Hw Hn). discriminate.
  - intros [c [[dst [Htx [Hw [Hn Hr]]]] Hz]].
    rewrite (convert_one_child_returns _ _ _ _ _ dst c Htx Hw Hn Hr).
    unfold success_of. cbn [fst snd]. now apply Z.eqb_eq.
Qed.

(** X5.  The message of the outcome [convert_one] returns is never the
    empty string. *)
Theorem convert_one_message_nonempty (env : Env) (src : Path)
    (ocio_path : option string) (verbose : bool) (maketx_path : string) :
  message_of (convert_one env src ocio_path verbose maketx_path) <> EmptyString.
Proof.
  destruct (tx_suffixed src) eqn:Htx.
  { rewrite convert_one_already_tx by exact Htx. discriminate. }
  destruct (with_suffix src (suffix src ^^ ".tx")) as [e|dst] eqn:Hw.
  { rewrite (convert_one_with_suffix_raises _ _ _ _ _ e Htx Hw). discriminate. }
  destruct (needs_conversion env src dst) as [e|[|]] eqn:Hn.
  - rewrite (convert_one_staleness_raises _ _ _ _ _ dst e Htx Hw Hn). discriminate.
  - destruct (run_child env (convert_cmd src ocio_path verbose maketx_path))
      as [e|c] eqn:Hr.
    + rewrite (convert_one_spawn_raises _ _ _ _ _ dst e Htx Hw Hn Hr). discriminate.
    + rewrite (convert_one_child_returns _ _ _ _ _ dst c Htx Hw Hn Hr).
      unfold message_of. cbn [fst snd].
      destruct (child_returncode c =? 0)%Z.
      * unfold success_message.
        destruct (verbose && Str.truthy (Str.strip (child_stdout c))) eqn:Hv.
        -- apply andb_prop in Hv. destruct Hv as [_ Hv].
           destruct (Str.strip (child_stdout c)); discriminate.
        -- discriminate.
      * discriminate.
  - rewrite (convert_one_up_to_date _ _ _ _ _ dst Htx Hw Hn). discriminate.
Qed.

Lemma skip_outcome_not_counted (o : Outcome) (total : nat) (t : Tally) :
  kind_of o = Skip ->
  fst (ConvertWorker.tally_one o total t) = mkTally (done t + 1) (ok t) (fail t)
  /\ snd (ConvertWorker.tally_one o total t)
     = [item_done (LogSkip (name (source_of o)) (snd o)); progress (done t + 1) total].
Proof.
  destruct o as [[src success] message]. unfold kind_of, ConvertWorker.tally_one.
  destruct success; [discriminate|].
  destruct (Str.contains "skip" (Str.lower message)); [auto | discriminate].
Qed.

(** X6.  The word "skip" decides the tally, whoever wrote it: when the
    converter exits with a non-zero status and its stripped standard
    error contains "skip" in any letter case, or when an exception whose
    text contains it is caught, the outcome is logged as a skip and the
    failure counter is not incremented. *)
Theorem failure_with_skip_word_is_tallied_as_skip (env : Env) (src : Path)
    (ocio_path : option string) (verbose : bool) (maketx_path : string) :
  let r := convert_one env src ocio_path verbose maketx_path in
  (forall c,
      reaches_process env src ocio_path verbose maketx_path c ->
      child_returncode c <> 0%Z ->
      Str.contains "skip" (Str.lower (Str.strip (child_stderr c))) = true ->
      success_of r = false
      /\ forall total t,
          fst (ConvertWorker.tally_one (fst r) total t)
          = mkTally (done t + 1) (ok t) (fail t))
  /\
  (forall e t0,
      convert_one_body env src ocio_path verbose maketx_path = (inl e, t0) ->
      Str.contains "skip" (Str.lower (str_of_exc e)) = true ->
      success_of r = false
      /\ forall total t,
          fst (ConvertWorker.tally_one (fst r) total t)
          = mkTally (done t + 1) (ok t) (fail t)).
Proof.
  intros r. split.
  - intros c [dst [Htx [Hw [Hn Hr]]]] Hrc Hskip. unfold r.
    rewrite (convert_one_child_returns _ _ _ _ _ dst c Htx Hw Hn Hr).
    apply Z.eqb_neq in Hrc. rewrite Hrc. split; [reflexivity|].
    intros total t. apply skip_outcome_not_counted.
    unfold kind_of, failure_message. cbn [fst].
    destruct (Str.truthy (Str.strip (child_stderr c))) eqn:Ht.
    + rewrite lower_app, (contains_app_r _ _ _ Hskip). reflexivity.
    + destruct (Str.strip (child_stderr c)); discriminate.
  - intros e t0 Hbody Hskip. unfold r, convert_one. rewrite Hbody.
    split; [reflexivity|].
    intros total t. apply skip_outcome_not_counted.
    unfold kind_of. cbn [fst].
    rewrite lower_app, (contains_app_r _ _ _ Hskip). reflexivity.
Qed.

Lemma failure_with_skip_word_is_tallied_as_skip_witness :
  let r := convert_one (sample_env false (Some (7#1)) (7#1) child_skip_error)
                       a_png None false "maketx" in
  success_of r = false
  /\ forall total t,
      fst (ConvertWorker.tally_one (fst r) total t) = mkTally (done t + 1) (ok t) (fail t).
Proof.
  intros r.
  refine (proj1 (failure_with_skip_word_is_tallied_as_skip
                   (sample_env false (Some (7#1)) (7#1) child_skip_error)
                   a_png None false "maketx")
            {| child_returncode := 1;
               child_stdout := EmptyString;
               child_stderr := "Skipping: unsupported format " ^^ newline |} _ _ _).
  - exists a_png_tx. repeat split; reflexivity.
  - discriminate.
  - reflexivity.
Defined.

(* ------------------------------------------------------------------ *)
(** * The destination path *)

Section Suffix.

Lemma contains_char_nil (c : ascii) : Str.contains (String c EmptyString) EmptyString = false.
Proof. reflexivity. Qed.

Lemma contains_char_cons (c d : ascii) (s : string) :
  Str.contains (String c EmptyString) (String d s)
  = Ascii.eqb c d || Str.contains (String c EmptyString) s.
Proof.
  cbn [Str.contains String.prefix].
  destruct (ascii_dec c d) as [->|Hne].
  - rewrite Ascii.eqb_refl. now destruct s.
  - apply Ascii.eqb_neq in Hne. now rewrite Hne.
Qed.

Lemma contains_char_app (c : ascii) (x y : string) :
  Str.contains (String c EmptyString) (x ^^ y)
  = Str.contains (String c EmptyString) x || Str.contains (String c EmptyString) y.
Proof.
  induction x as [|d x IH].
  - reflexivity.
  - change (String d x ^^ y) with (String d (x ^^ y)).
    rewrite !contains_char_cons, IH. now rewrite orb_assoc.
Qed.

Lemma take_drop (n : nat) (s : string) : Str.take n s ^^ Str.drop n s = s.
Proof.
  revert s; induction n as [|n IH]; intros [|c s]; simpl; try reflexivity.
  now rewrite IH.
Qed.

Lemma length_drop (n : nat) (s : string) :
  String.length (Str.drop n s) = String.length s - n.
Proof.
  revert s; induction n as [|n IH]; intros [|c s]; simpl; try reflexivity.
  apply IH.
Qed.

Lemma contains_char_drop (c : ascii) (n : nat) (s : string) :
  Str.contains (String c EmptyString) s = false ->
  Str.contains (String c EmptyString) (Str.drop n s) = false.
Proof.
  intros H. rewrite <- (take_drop n s), contains_char_app in H.
  now apply orb_false_elim in H.
Qed.

Lemma rfind_spec (c : ascii) (s : string) (i : nat) :
  Str.rfind c s = Some i ->
  i < String.length s /\ exists rest, Str.drop i s = String c rest.
Proof.
  revert i; induction s as [|a s IH]; intros i; simpl; [discriminate|].
  destruct (Str.rfind c s) as [j|].
  - intros H. injection H as <-. destruct (IH j eq_refl) as [Hj [rest Hr]].
    split; [lia | exists rest; exact Hr].
  - destruct (Ascii.eqb a c) eqn:Hac; [|discriminate].
    intros H. injection H as <-. apply Ascii.eqb_eq in Hac. subst a.
    split; [lia | exists s; reflexivity].
Qed.

(** [p.suffix] is empty or a tail of the name that starts with a dot; in
    both cases cutting it off and putting it back gives the name. *)
Lemma name_suffix_cases (nm : string) :
  name_suffix nm = EmptyString
  \/ exists i rest, i < String.length nm
                    /\ name_suffix nm = Str.drop i nm
                    /\ Str.drop i nm = String "." rest.
Proof.
  unfold name_suffix.
  destruct (Str.rfind "." nm) as [i|] eqn:Hr; [|now left].
  destruct ((0 <? i) && (i <? String.length nm - 1)); [|now left].
  right. destruct (rfind_spec _ _ _ Hr) as [Hi [rest Hd]].
  exists i, rest. auto.
Qed.

Lemma dot_suffix_valid (rest : string) :
  (Str.truthy (String "." rest ^^ ".tx")
   && negb (String.prefix "." (String "." rest ^^ ".tx"))
   || String.eqb (String "." rest ^^ ".tx") ".") = false.
Proof. destruct rest; reflexivity. Qed.

Lemma with_suffix_tx (p : Path) :
  plain_name p ->
  with_suffix p (suffix p ^^ ".tx") = inr (tx_sibling p).
Proof.
  intros [Hne Hsep].
  apply orb_false_elim in Hsep. destruct Hsep as [Hs1 Hs2].
  assert (Hname : Str.truthy (name p) = true)
    by (destruct (name p); [now elim Hne | reflexivity]).
  assert (Hnosep : has_sep (windows p) (suffix p ^^ ".tx") = false).
  { unfold has_sep, suffix. rewrite !contains_char_app.
    destruct (name_suffix_cases (name p)) as [->|[i [rest [_ [-> _]]]]].
    - cbn. now rewrite andb_false_r.
    - rewrite (contains_char_drop _ i _ Hs1). cbn [orb].
      destruct (windows p); [|reflexivity]. cbn [andb] in *.
      rewrite (contains_char_drop _ i _ Hs2). reflexivity. }
  assert (Hvalid : (Str.truthy (suffix p ^^ ".tx")
                    && negb (String.prefix "." (suffix p ^^ ".tx"))
                    || String.eqb (suffix p ^^ ".tx") ".") = false).
  { unfold suffix.
    destruct (name_suffix_cases (name p)) as [->|[i [rest [_ [-> ->]]]]];
      [reflexivity | apply dot_suffix_valid]. }
  unfold with_suffix. rewrite Hnosep, Hvalid, Hname. cbn [negb].
  unfold tx_sibling. do 2 f_equal. unfold suffix.
  destruct (name_suffix_cases (name p)) as [->|[i [rest [Hi [Hsfx Hd]]]]].
  - reflexivity.
  - rewrite Hsfx. rewrite Hd at 1. cbn [Str.truthy negb].
    rewrite length_drop.
    replace (String.length (name p) - (String.length (name p) - i)) with i by lia.
    rewrite <- append_assoc, take_drop. reflexivity.
Qed.

End Suffix.

Section Destination.

Lemma rfind_app (c : ascii) (x y : string) :
  Str.rfind c (x ^^ y)
  = match Str.rfind c y with
    | Some j => Some (String.length x + j)
    | None => Str.rfind c x
    end.
Proof.
  induction x as [|a x IH].
  - simpl. now destruct (Str.rfind c y).
  - change (String a x ^^ y) with (String a (x ^^ y)).
    cbn [Str.rfind]. rewrite IH.
    destruct (Str.rfind c y); reflexivity.
Qed.

Lemma drop_app_length (x y : string) : Str.drop (String.length x) (x ^^ y) = y.
Proof. induction x as [|a x IH]; simpl; [now destruct y | exact IH]. Qed.

Lemma string_length_app (x y : string) :
  String.length (x ^^ y) = String.length x + String.length y.
Proof. induction x as [|a x IH]; simpl; [reflexivity | now rewrite IH]. Qed.

Lemma suffix_tx_sibling (p : Path) :
  name p <> EmptyString -> suffix (tx_sibling p) = ".tx".
Proof.
  intros Hne. unfold suffix, tx_sibling, name_suffix. cbn [name].
  rewrite rfind_app. cbn [Str.rfind Ascii.eqb Bool.eqb].
  rewrite Nat.add_0_r, string_length_app. cbn [String.length].
  assert (Hpos : 0 < String.length (name p))
    by (destruct (name p); [now elim Hne | simpl; lia]).
  replace (0 <? String.length (name p)) with true
    by (symmetry; now apply Nat.ltb_lt).
  replace (String.length (name p) <? String.length (name p) + 3 - 1) with true
    by (symmetry; apply Nat.ltb_lt; lia).
  cbn [andb]. apply drop_app_length.
Qed.

End Destination.

(** X7.  For a source whose name is non-empty and free of separators and
    whose extension is not ".tx", the destination is the source with
    ".tx" appended to its name, in the same directory, and its extension
    is ".tx".  Staleness is judged on that path: when it does not exist
    the converter is run; when [needs_conversion] says no, the message
    names the source's name followed by ".tx". *)
Theorem convert_one_destination (env : Env) (src : Path)
    (ocio_path : option string) (verbose : bool) (maketx_path : string) :
  plain_name src ->
  tx_suffixed src = false ->
  with_suffix src (suffix src ^^ ".tx") = inr (tx_sibling src)
  /\ str (tx_sibling src) = str src ^^ ".tx"
  /\ suffix (tx_sibling src) = ".tx"
  /\ (path_exists env (str src ^^ ".tx") = inr false ->
      snd (convert_one env src ocio_path verbose maketx_path)
      = [Spawned (convert_cmd src ocio_path verbose maketx_path) verbose])
  /\ (needs_conversion env src (tx_sibling src) = inr false ->
      convert_one env src ocio_path verbose maketx_path
      = ((src, false, "Up-to-date .tx exists: " ^^ name src ^^ ".tx; skipping."), [])).
Proof.
  intros Hplain Htx.
  pose proof (with_suffix_tx src Hplain) as Hw.
  assert (Hstr : str (tx_sibling src) = str src ^^ ".tx").
  { unfold str, tx_sibling. cbn [dirpart name]. now rewrite append_assoc. }
  split; [exact Hw|]. split; [exact Hstr|].
  split; [apply suffix_tx_sibling; exact (proj1 Hplain)|]. split.
  - intros Hex.
    assert (Hn : needs_conversion env src (tx_sibling src) = inr true).
    { unfold needs_conversion. now rewrite Hstr, Hex. }
    destruct (run_child env (convert_cmd src ocio_path verbose maketx_path))
      as [e|c] eqn:Hr.
    + now rewrite (convert_one_spawn_raises _ _ _ _ _ _ e Htx Hw Hn Hr).
    + now rewrite (convert_one_child_returns _ _ _ _ _ _ c Htx Hw Hn Hr).
  - intros Hn. rewrite (convert_one_up_to_date _ _ _ _ _ _ Htx Hw Hn).
    unfold tx_sibling. cbn [name]. now rewrite append_assoc.
Qed.

Lemma convert_one_destination_witness :
  with_suffix a_png (suffix a_png ^^ ".tx") = inr a_png_tx
  /\ snd (convert_one (sample_env false (Some (7#1)) (7#1) child_ok)
                      a_png None false "maketx")
     = [Spawned (convert_cmd a_png None false "maketx") false].
Proof.
  pose proof (convert_one_destination (sample_env false (Some (7#1)) (7#1) child_ok)
                a_png None false "maketx") as H.
  destruct H as [H1 [_ [_ [H4 _]]]].
  - split; [discriminate | reflexivity].
  - reflexivity.
  - split; [exact H1 | apply H4; reflexivity].
Defined.

(** X8.  What a conversion writes is never taken as an input: the
    destination of any source with a non-empty name has extension ".tx",
    so no run submits it, and handing it to [convert_one] directly gives
    the "Already a .tx" skip without any call of [subprocess.run]. *)
Theorem outputs_are_not_inputs (env : Env) (task_env : nat -> Env)
    (sch : Schedule) (self : ConvertWorker.t) (src : Path) :
  name src <> EmptyString ->
  ~ In (tx_sibling src) (submitted (ConvertWorker.run env task_env sch self))
  /\ forall env' ocio_path verbose maketx_path,
      convert_one env' (tx_sibling src) ocio_path verbose maketx_path
      = ((tx_sibling src, false, "Already a .tx; skipping."), []).
Proof.
  intros Hne. pose proof (suffix_tx_sibling src Hne) as Hs. split.
  - intros Hin.
    destruct (run_cases env task_env sch self)
      as [[Hsub _] | [ocio [files [_ [_ [He [_ [Hsub _]]]]]]]]; rewrite Hsub in Hin.
    + contradiction.
    + apply (enumerate_valid_ext _ _ _ He) in Hin. rewrite Hs in Hin.
      exact (tx_not_valid_ext Hin).
  - intros env' ocio_path verbose maketx_path.
    apply convert_one_already_tx. apply tx_suffixed_true. now rewrite Hs.
Qed.

Lemma outputs_are_not_inputs_witness :
  ~ In a_png_tx (submitted (ConvertWorker.run sample_batch (fun _ => sample_batch)
                              (sample_schedule 1) (sample_worker None))).
Proof.
  refine (proj1 (outputs_are_not_inputs sample_batch (fun _ => sample_batch)
                   (sample_schedule 1) (sample_worker None) a_png _)).
  discriminate.
Defined.

(* ------------------------------------------------------------------ *)
(** * Further properties of the orchestrator *)

(** X9.  The converter path is checked first: when it is empty, or names
    nothing that exists, the run ends with the one fatal signal about
    maketx, whatever the colour configuration and the folder are; an
    empty path is not even looked up. *)
Theorem run_maketx_checked_first (env : Env) (task_env : nat -> Env)
    (sch : Schedule) (self : ConvertWorker.t) :
  ConvertWorker.maketx_path self = EmptyString
  \/ path_exists env (ConvertWorker.maketx_path self) = inr false ->
  ConvertWorker.run env task_env sch self
  = ConvertWorker.stopped
      [fatal "maketx.exe not set or not found. Please select the path in the GUI."]
      None.
Proof.
  intros H. unfold ConvertWorker.run, ConvertWorker.maketx_missing.
  destruct H as [-> | H].
  - reflexivity.
  - destruct (Str.truthy (ConvertWorker.maketx_path self)); cbn [negb].
    + now rewrite H.
    + reflexivity.
Qed.

Lemma run_maketx_checked_first_witness :
  ConvertWorker.run sample_batch (fun _ => sample_batch) (sample_schedule 1)
    (ConvertWorker.init (mkPath false "/" "tex") EmptyString false None false "   ")
  = ConvertWorker.stopped
      [fatal "maketx.exe not set or not found. Please select the path in the GUI."]
      None.
Proof.
  apply run_maketx_checked_first. left. reflexivity.
Defined.

Section Listing.

Variables (env : Env) (self : ConvertWorker.t).

Lemma collect_filter (listing : list Path) :
  is_file_answers env listing ->
  ConvertWorker.collect env self listing = inr (filter (kept env self) listing).
Proof.
  unfold is_file_answers.
  induction listing as [|p listing IH]; intros Hans; [reflexivity|].
  cbn [ConvertWorker.collect filter]. unfold kept at 1.
  destruct (Hans p (or_introl eq_refl)) as [b Hb].
  rewrite IH by (intros q Hq; apply Hans; now right).
  unfold ConvertWorker.keep. rewrite Hb.
  destruct (b && Str.mem (Str.lower (suffix p)) VALID_EXTS);
    [destruct (Str.truthy (ConvertWorker.filter_str self)
               && negb (Str.contains (ConvertWorker.filter_str self) (name p)))|];
    reflexivity.
Qed.

Lemma collect_raises (listing : list Path) (p : Path) (e : Exc) :
  In p listing ->
  path_is_file env (str p) = inl e ->
  exists e', ConvertWorker.collect env self listing = inl e'.
Proof.
  induction listing as [|q listing IH]; intros Hin Hp; [contradiction|].
  cbn [ConvertWorker.collect].
  destruct (ConvertWorker.keep env self q) as [e0|k] eqn:Hk; [eauto|].
  destruct Hin as [->|Hin].
  - unfold ConvertWorker.keep in Hk. rewrite Hp in Hk. discriminate.
  - destruct (IH Hin Hp) as [e' ->]. eauto.
Qed.

Lemma kept_spec (p : Path) :
  kept env self p = true
  <-> path_is_file env (str p) = inr true
      /\ In (Str.lower (suffix p)) VALID_EXTS
      /\ (ConvertWorker.filter_str self = EmptyString
          \/ substring_of (ConvertWorker.filter_str self) (name p)).
Proof.
  unfold kept, ConvertWorker.keep.
  rewrite <- mem_spec, <- contains_spec.
  destruct (path_is_file env (str p)) as [e|[|]]; cbn [andb].
  - split; [discriminate | intros [H _]; discriminate].
  - destruct (Str.mem (Str.lower (suffix p)) VALID_EXTS).
    + destruct (ConvertWorker.filter_str self) as [|a f] eqn:Hf; cbn [Str.truthy andb].
      * split; auto.
      * destruct (Str.contains (String a f) (name p)); cbn [negb].
        -- split; auto.
        -- split; [discriminate|]. intros [_ [_ [H|H]]]; discriminate.
    + split; [discriminate | intros [_ [H _]]; discriminate].
  - split; [discriminate | intros [H _]; discriminate].
Qed.

End Listing.

(** X10.  When [is_file] answers for every listed path, the files [run]
    works on are the listing filtered, in listing order: a path is taken
    exactly when it is a regular file, its lower-cased extension is a
    recognised one, and the name filter is empty or occurs in its name
    (letter case counting). *)
Theorem enumerate_is_filter (env : Env) (self : ConvertWorker.t)
    (listing : list Path) :
  listing_of env self = inr listing ->
  is_file_answers env listing ->
  ConvertWorker.enumerate env self = inr (filter (kept env self) listing)
  /\ forall p,
      In p (filter (kept env self) listing)
      <-> In p listing
          /\ path_is_file env (str p) = inr true
          /\ In (Str.lower (suffix p)) VALID_EXTS
          /\ (ConvertWorker.filter_str self = EmptyString
              \/ substring_of (ConvertWorker.filter_str self) (name p)).
Proof.
  intros Hl Hans. split.
  - unfold ConvertWorker.enumerate. unfold listing_of in Hl. rewrite Hl.
    now apply collect_filter.
  - intros p. rewrite filter_In, kept_spec. reflexivity.
Qed.

Lemma enumerate_is_filter_witness :
  ConvertWorker.enumerate sample_batch (sample_worker None)
  = inr [tex "a.png"; tex "b_disp.EXR"].
Proof.
  refine (proj1 (enumerate_is_filter sample_batch (sample_worker None)
                   sample_listing _ _)).
  - reflexivity.
  - intros p _. eexists. reflexivity.
Defined.

(** X11.  After the two checks, a failure to list the folder ends the
    run with the fatal signal "Failed to list files: " and the error text,
    and so does an [is_file] that raises on any listed path, even one that
    would not have been taken; a listing from which nothing is taken ends
    it with "No valid textures in folder".  Nothing is submitted in any of
    these cases. *)
Theorem run_listing_fatal (env : Env) (task_env : nat -> Env)
    (sch : Schedule) (self : ConvertWorker.t) :
  checks_passed env self ->
  let r := ConvertWorker.run env task_env sch self in
  (forall e, listing_of env self = inl e ->
             r = ConvertWorker.stopped
                   [fatal ("Failed to list files: " ^^ str_of_exc e)] None)
  /\ (forall listing p e,
         listing_of env self = inr listing ->
         In p listing -> path_is_file env (str p) = inl e ->
         exists e', r = ConvertWorker.stopped
                          [fatal ("Failed to list files: " ^^ str_of_exc e')] None)
  /\ (forall listing,
         listing_of env self = inr listing ->
         is_file_answers env listing ->
         (forall p, In p listing -> kept env self p = false) ->
         r = ConvertWorker.stopped
               [fatal "No valid textures in folder (check extensions or filter)."] None).
Proof.
  intros [Hm [ocio Ho]] r. unfold r, ConvertWorker.run.
  rewrite Hm, Ho. unfold ConvertWorker.enumerate, listing_of.
  split; [|split].
  - intros e ->. reflexivity.
  - intros listing p e -> Hin Hp.
    destruct (collect_raises env self listing p e Hin Hp) as [e' ->]. eauto.
  - intros listing -> Hans Hnone.
    rewrite (collect_filter env self listing Hans).
    replace (filter (kept env self) listing) with (@nil Path); [reflexivity|].
    symmetry. clear Hans. induction listing as [|q listing IH]; [reflexivity|].
    cbn [filter]. rewrite (Hnone q (or_introl eq_refl)).
    apply IH. intros p Hp. apply Hnone. now right.
Qed.

Lemma run_listing_fatal_witness :
  ConvertWorker.run
    (batch_env (Some "/cfg/aces.ocio") [tex "a.png.tx"; tex "notes.txt"] child_ok)
    (fun _ => sample_batch) (sample_schedule 1) (sample_worker None)
  = ConvertWorker.stopped
      [fatal "No valid textures in folder (check extensions or filter)."] None.
Proof.
  refine (proj2 (proj2 (run_listing_fatal
                          (batch_env (Some "/cfg/aces.ocio")
                             [tex "a.png.tx"; tex "notes.txt"] child_ok)
                          (fun _ => sample_batch) (sample_schedule 1)
                          (sample_worker None) _))
            [tex "a.png.tx"; tex "notes.txt"] _ _ _).
  - split; [reflexivity | exists "/cfg/aces.ocio"; reflexivity].
  - reflexivity.
  - intros p _. eexists. reflexivity.
  - intros p [<-|[<-|[]]]; reflexivity.
Defined.

(** X12.  A run that submits tasks first announces how many textures it
    found, a positive number, and how many workers it uses: one less
    than the processor count, and one when the count is unknown, 0 or 1. *)
Theorem run_announces_workers (env : Env) (task_env : nat -> Env)
    (sch : Schedule) (self : ConvertWorker.t) :
  let r := ConvertWorker.run env task_env sch self in
  submitted r <> [] ->
  exists rest,
    signals r
    = item_done (LogFound (List.length (submitted r))
                          (match cpu_count env with
                           | Some n => Nat.max 1 (n - 1)
                           | None => 1
                           end)) :: rest
    /\ 1 <= match cpu_count env with
            | Some n => Nat.max 1 (n - 1)
            | None => 1
            end.
Proof.
  intros r. unfold r, ConvertWorker.run.
  destruct (ConvertWorker.maketx_missing env self) as [e|[|]];
    try (intros H; now elim H).
  destruct (ConvertWorker.resolve_ocio env self) as [e|[msg|ocio]];
    try (intros H; now elim H).
  destruct (ConvertWorker.enumerate env self) as [e|files];
    try (intros H; now elim H).
  destruct (List.length files =? 0); try (intros H; now elim H).
  destruct (ConvertWorker.drain _ _ _ _ _) as [t sigs].
  cbn [signals submitted]. intros _.
  exists (sigs ++ [finished (ok t) (fail t)]). split.
  - do 3 f_equal. destruct (cpu_count env) as [[|n]|]; lia.
  - destruct (cpu_count env) as [n|]; lia.
Qed.

Lemma run_announces_workers_witness :
  exists rest,
    signals (ConvertWorker.run sample_batch (fun _ => sample_batch)
               (sample_schedule 1) (sample_worker None))
    = item_done (LogFound 2 3) :: rest.
Proof.
  destruct (run_announces_workers sample_batch (fun _ => sample_batch)
              (sample_schedule 1) (sample_worker None)) as [rest [H _]].
  - discriminate.
  - exists rest. exact H.
Defined.

Section Bounds.

Variable cancelled : nat -> bool.
Variable total : nat.

Lemma drain_progress_bounds (futs : list Outcome) (k : nat) (t : Tally) (d tt : nat) :
  In (progress d tt) (snd (ConvertWorker.drain cancelled k futs total t)) ->
  tt = total /\ done t < d <= done t + List.length futs.
Proof.
  revert k t. induction futs as [|o futs IH]; intros k t; cbn [ConvertWorker.drain].
  - simpl. contradiction.
  - destruct (cancelled k).
    + simpl. intros [H|[]]. discriminate.
    + rewrite tally_one_spec.
      specialize (IH (S k) (tally_after t [o])).
      destruct (ConvertWorker.drain _ _ _ _ _) as [t' s'].
      cbn [snd] in *. intros [H|[H|H]]; [discriminate| |].
      * injection H as <- <-. simpl. lia.
      * destruct (IH H) as [-> Hd]. unfold tally_after in Hd. cbn [done] in Hd.
        simpl in *. lia.
Qed.

Lemma drain_tally_bounds (futs : list Outcome) (k : nat) (t : Tally) :
  ok t + fail t <= done t ->
  let t' := fst (ConvertWorker.drain cancelled k futs total t) in
  ok t' + fail t' <= done t' /\ done t' <= done t + List.length futs.
Proof.
  revert k t. induction futs as [|o futs IH]; intros k t Ht; cbn [ConvertWorker.drain].
  - simpl. lia.
  - destruct (cancelled k).
    + simpl. lia.
    + rewrite tally_one_spec.
      assert (Ht1 : ok (tally_after t [o]) + fail (tally_after t [o])
                    <= done (tally_after t [o])).
      { unfold tally_after. cbn [ok fail done List.length].
        pose proof (count_kind_partition [o]) as Hp. simpl in Hp. lia. }
      specialize (IH (S k) (tally_after t [o]) Ht1).
      destruct (ConvertWorker.drain _ _ _ _ _) as [t' s'].
      cbn [fst] in *. unfold tally_after in IH. cbn [done List.length] in IH.
      simpl. lia.
Qed.

Lemma drain_no_terminal (futs : list Outcome) (k : nat) (t : Tally) :
  forallb (fun s => negb (is_terminal s))
          (snd (ConvertWorker.drain cancelled k futs total t)) = true.
Proof.
  revert k t. induction futs as [|o futs IH]; intros k t; cbn [ConvertWorker.drain].
  - reflexivity.
  - destruct (cancelled k); [reflexivity|].
    rewrite tally_one_spec.
    specialize (IH (S k) (tally_after t [o])).
    destruct (ConvertWorker.drain _ _ _ _ _) as [t' s'].
    cbn [snd] in *. simpl. exact IH.
Qed.

End Bounds.

Lemma as_completed_length (sch : Schedule) (futs : list Outcome) :
  NoDup (completion sch) ->
  List.length (ConvertWorker.as_completed sch futs) <= List.length futs.
Proof.
  intros Hnd. unfold ConvertWorker.as_completed.
  assert (Hlen : forall l,
             List.length (flat_map (fun i => match nth_error futs i with
                                             | Some o => [o]
                                             | None => []
                                             end) l)
             = List.length (filter (fun i => i <? List.length futs) l)).
  { induction l as [|i l IH]; [reflexivity|].
    cbn [flat_map filter]. rewrite length_app, IH.
    destruct (i <? List.length futs) eqn:Hi.
    - apply Nat.ltb_lt, nth_error_Some in Hi.
      destruct (nth_error futs i); [reflexivity | now elim Hi].
    - apply Nat.ltb_ge, nth_error_None in Hi. now rewrite Hi. }
  rewrite Hlen.
  assert (H : List.length (filter (fun i => i <? List.length futs) (completion sch))
              <= List.length (seq 0 (List.length futs))).
  { apply NoDup_incl_length.
    - now apply NoDup_filter.
    - intros i Hi. apply filter_In in Hi. destruct Hi as [_ Hi].
      apply Nat.ltb_lt in Hi. apply in_seq. lia. }
  now rewrite length_seq in H.
Qed.

(** X13.  When no submitted task is yielded twice, then, cancelled or
    not, every progress signal carries the number of enumerated files as
    its total and a count between 1 and that total, and the final tally
    has successes + failures at most that total. *)
Theorem run_counts_bounded (env : Env) (task_env : nat -> Env)
    (sch : Schedule) (self : ConvertWorker.t) :
  NoDup (completion sch) ->
  let r := ConvertWorker.run env task_env sch self in
  let N := List.length (submitted r) in
  (forall d tt, In (progress d tt) (signals r) -> tt = N /\ 1 <= d <= N)
  /\ (forall k f, In (finished k f) (signals r) -> k + f <= N).
Proof.
  intros Hnd r N. subst N.
  destruct (run_cases env task_env sch self)
    as [[Hs [Ht [Hsig|[msg Hsig]]]] | [ocio [files [_ [_ [_ [_ [Hs [Ht [_ [w Hsig]]]]]]]]]]];
    fold r in Hs, Hsig; rewrite Hs, Hsig.
  - split; intros; contradiction.
  - split; intros ? ? [H|[]]; discriminate.
  - cbv zeta.
    set (futs := ConvertWorker.as_completed sch
                   (map fst (ConvertWorker.submit_all task_env files ocio self))).
    assert (Hlen : List.length futs <= List.length files).
    { unfold futs.
      rewrite <- (submit_all_length task_env files ocio self),
        <- (length_map fst (ConvertWorker.submit_all task_env files ocio self)).
      now apply as_completed_length. }
    split.
    + intros d tt [H|H]; [discriminate|].
      apply in_app_or in H. destruct H as [H|[H|[]]]; [|discriminate].
      apply drain_progress_bounds in H. cbn [done] in H. lia.
    + intros k f [H|H]; [discriminate|].
      apply in_app_or in H. destruct H as [H|[H|[]]].
      * exfalso.
        pose proof (drain_no_terminal (cancelled_at sch) (List.length files)
                      futs 0 (mkTally 0 0 0)) as Hnt.
        rewrite forallb_forall in Hnt. specialize (Hnt _ H). discriminate.
      * injection H as <- <-.
        pose proof (drain_tally_bounds (cancelled_at sch) (List.length files)
                      futs 0 (mkTally 0 0 0)) as Hb.
        cbv zeta in Hb. cbn [ok fail done] in Hb. specialize (Hb (le_n 0)). lia.
Qed.

Lemma run_counts_bounded_witness : 1 + 0 <= 2.
Proof.
  refine (proj2 (run_counts_bounded sample_batch (fun _ => sample_batch)
                   (sample_schedule 1) (sample_worker None) _) 1 0 _).
  - repeat constructor; simpl; intuition discriminate.
  - vm_compute. do 4 right. left. reflexivity.
Defined.

(** X14.  A run from which no exception escapes ends with exactly one
    terminal signal, fatal or finished, and that signal is the last one;
    a run from which an exception escapes has emitted no signal at all. *)
Theorem run_ends_with_one_terminal (env : Env) (task_env : nat -> Env)
    (sch : Schedule) (self : ConvertWorker.t) :
  let r := ConvertWorker.run env task_env sch self in
  (raised r = None ->
   exists before last,
     signals r = before ++ [last]
     /\ is_terminal last = true
     /\ forallb (fun s => negb (is_terminal s)) before = true)
  /\ (forall e, raised r = Some e -> signals r = [] /\ submitted r = []).
Proof.
  intros r. unfold r, ConvertWorker.run.
  destruct (ConvertWorker.maketx_missing env self) as [e|[|]].
  { split; [discriminate | auto]. }
  { split; [|discriminate]. intros _. exists [], (fatal
      "maketx.exe not set or not found. Please select the path in the GUI."). auto. }
  destruct (ConvertWorker.resolve_ocio env self) as [e|[msg|ocio]].
  { split; [discriminate | auto]. }
  { split; [|discriminate]. intros _. exists [], (fatal msg). auto. }
  destruct (ConvertWorker.enumerate env self) as [e|files].
  { split; [|discriminate]. intros _.
    exists [], (fatal ("Failed to list files: " ^^ str_of_exc e)). auto. }
  destruct (List.length files =? 0).
  { split; [|discriminate]. intros _.
    exists [], (fatal "No valid textures in folder (check extensions or filter)."). auto. }
  pose proof (drain_no_terminal (cancelled_at sch) (List.length files)
                (ConvertWorker.as_completed sch
                   (map fst (ConvertWorker.submit_all task_env files ocio self)))
                0 (mkTally 0 0 0)) as Hnt.
  destruct (ConvertWorker.drain _ _ _ _ _) as [t sigs].
  cbn [snd] in Hnt. cbn [signals raised submitted].
  split; [|discriminate]. intros _.
  eexists (_ :: sigs), (finished (ok t) (fail t)). split; [reflexivity|].
  split; [reflexivity|]. cbn [forallb is_terminal negb andb]. exact Hnt.
Qed.

Lemma run_ends_with_one_terminal_witness :
  exists before last,
    signals (ConvertWorker.run sample_batch (fun _ => sample_batch)
               (sample_schedule 1) (sample_worker None))
    = before ++ [last]
    /\ is_terminal last = true
    /\ forallb (fun s => negb (is_terminal s)) before = true.
Proof.
  apply (proj1 (run_ends_with_one_terminal sample_batch (fun _ => sample_batch)
                  (sample_schedule 1) (sample_worker None))).
  reflexivity.
Defined.

(* ------------------------------------------------------------------ *)
(** * The worker's fields *)

Section Strip.

Lemma rstrip_idem (s : string) : Str.rstrip (Str.rstrip s) = Str.rstrip s.
Proof.
  induction s as [|c s IH]; [reflexivity|].
  cbn [Str.rstrip].
  destruct (Str.rstrip s) as [|d r] eqn:Hr.
  - destruct (Str.isspace c) eqn:Hc; [reflexivity|].
    cbn [Str.rstrip]. now rewrite Hc.
  - change (Str.rstrip (String c (String d r)))
      with (match Str.rstrip (String d r) with
            | EmptyString => if Str.isspace c then EmptyString else String c EmptyString
            | String a t => String c (String a t)
            end).
    now rewrite IH.
Qed.

Lemma lstrip_head (s : string) :
  match Str.lstrip s with
  | EmptyString => True
  | String c _ => Str.isspace c = false
  end.
Proof.
  induction s as [|c s IH]; [exact I|].
  cbn [Str.lstrip]. destruct (Str.isspace c) eqn:Hc; [exact IH | exact Hc].
Qed.

Lemma rstrip_head (c : ascii) (s : string) :
  Str.isspace c = false ->
  exists r, Str.rstrip (String c s) = String c r.
Proof.
  intros Hc. cbn [Str.rstrip].
  destruct (Str.rstrip s); [rewrite Hc|]; eauto.
Qed.

Lemma strip_idem (s : string) : Str.strip (Str.strip s) = Str.strip s.
Proof.
  unfold Str.strip.
  pose proof (lstrip_head s) as Hh.
  destruct (Str.lstrip s) as [|c t].
  - reflexivity.
  - destruct (rstrip_head c t Hh) as [r Hr]. rewrite Hr.
    cbn [Str.lstrip]. rewrite Hh, <- Hr. apply rstrip_idem.
Qed.

End Strip.

Section WorkerFields.

Variables (env : Env) (task_env : nat -> Env) (sch : Schedule).

(** [run] reads the worker through its fields, and the configuration
    field only when it is a non-empty string. *)
Lemma run_same_fields (w1 w2 : ConvertWorker.t) :
  ConvertWorker.root_dir w1 = ConvertWorker.root_dir w2 ->
  ConvertWorker.filter_str w1 = ConvertWorker.filter_str w2 ->
  ConvertWorker.recursive w1 = ConvertWorker.recursive w2 ->
  ConvertWorker.verbose w1 = ConvertWorker.verbose w2 ->
  ConvertWorker.maketx_path w1 = ConvertWorker.maketx_path w2 ->
  (ConvertWorker.ocio_file w1 = ConvertWorker.ocio_file w2
   \/ (opt_truthy (ConvertWorker.ocio_file w1) = false
       /\ opt_truthy (ConvertWorker.ocio_file w2) = false)) ->
  ConvertWorker.run env task_env sch w1 = ConvertWorker.run env task_env sch w2.
Proof.
  intros Hr Hf Hrec Hv Hm Ho.
  assert (Hres : ConvertWorker.resolve_ocio env w1 = ConvertWorker.resolve_ocio env w2).
  { unfold ConvertWorker.resolve_ocio.
    destruct Ho as [-> | [-> ->]]; reflexivity. }
  assert (Hcol : forall l, ConvertWorker.collect env w1 l = ConvertWorker.collect env w2 l).
  { induction l as [|p l IH]; [reflexivity|].
    cbn [ConvertWorker.collect]. unfold ConvertWorker.keep. now rewrite Hf, IH. }
  unfold ConvertWorker.run, ConvertWorker.maketx_missing, ConvertWorker.enumerate,
    ConvertWorker.submit_all.
  rewrite Hres, Hm, Hr, Hrec, Hv.
  destruct (if negb (Str.truthy (ConvertWorker.maketx_path w2)) then _ else _)
    as [e|[|]]; try reflexivity.
  destruct (ConvertWorker.resolve_ocio env w2) as [e|[msg|ocio]]; try reflexivity.
  destruct (if ConvertWorker.recursive w2 then _ else _) as [e|listing];
    [reflexivity|].
  now rewrite Hcol.
Qed.

End WorkerFields.

(** X15.  A colour-configuration argument made of white space only
    counts as none: the run is the one of a worker built without it, so
    $OCIO decides. *)
Theorem blank_ocio_is_no_ocio (env : Env) (task_env : nat -> Env) (sch : Schedule)
    (root_dir : Path) (filter_str : string) (recursive : bool) (blank : string)
    (verbose : bool) (maketx_path : string) :
  Str.strip blank = EmptyString ->
  ConvertWorker.run env task_env sch
    (ConvertWorker.init root_dir filter_str recursive (Some blank) verbose maketx_path)
  = ConvertWorker.run env task_env sch
      (ConvertWorker.init root_dir filter_str recursive None verbose maketx_path).
Proof.
  intros Hb. apply run_same_fields; try reflexivity.
  right. unfold ConvertWorker.init. cbn [ConvertWorker.ocio_file opt_truthy option_map].
  destruct (Str.truthy blank); [|auto].
  cbn [opt_truthy]. rewrite Hb. auto.
Qed.

Lemma blank_ocio_is_no_ocio_witness :
  ConvertWorker.run sample_batch (fun _ => sample_batch) (sample_schedule 1)
    (ConvertWorker.init (mkPath false "/" "tex") EmptyString false
       (Some ("  " ^^ newline)) false "/bin/maketx")
  = ConvertWorker.run sample_batch (fun _ => sample_batch) (sample_schedule 1)
      (sample_worker None).
Proof.
  apply (blank_ocio_is_no_ocio sample_batch (fun _ => sample_batch) (sample_schedule 1)
           (mkPath false "/" "tex") EmptyString false ("  " ^^ newline) false
           "/bin/maketx").
  reflexivity.
Defined.

(** X16.  [__init__] stores its text arguments stripped, and stripping
    is idempotent: the stored filter and converter path and a stored
    configuration path are unchanged by another [strip], and building the
    worker from arguments that were stripped beforehand gives a run that
    is the same in every respect. *)
Theorem init_strips_once (env : Env) (task_env : nat -> Env) (sch : Schedule)
    (root_dir : Path) (filter_str : string) (recursive : bool)
    (ocio_file : option string) (verbose : bool) (maketx_path : string) :
  let w := ConvertWorker.init root_dir filter_str recursive ocio_file verbose
             maketx_path in
  Str.strip (ConvertWorker.filter_str w) = ConvertWorker.filter_str w
  /\ Str.strip (ConvertWorker.maketx_path w) = ConvertWorker.maketx_path w
  /\ (forall f, ConvertWorker.ocio_file w = Some f -> Str.strip f = f)
  /\ ConvertWorker.run env task_env sch
       (ConvertWorker.init root_dir (Str.strip filter_str) recursive
          (option_map Str.strip ocio_file) verbose (Str.strip maketx_path))
     = ConvertWorker.run env task_env sch w.
Proof.
  intros w. unfold w, ConvertWorker.init.
  cbn [ConvertWorker.filter_str ConvertWorker.maketx_path ConvertWorker.ocio_file].
  split; [|split; [|split]].
  - destruct (Str.truthy filter_str); [apply strip_idem | reflexivity].
  - apply strip_idem.
  - intros f. destruct ocio_file as [o|]; cbn [opt_truthy option_map].
    + destruct (Str.truthy o); [|discriminate].
      intros H. injection H as <-. apply strip_idem.
    + discriminate.
  - apply run_same_fields;
      cbn [ConvertWorker.root_dir ConvertWorker.filter_str ConvertWorker.recursive
           ConvertWorker.verbose ConvertWorker.maketx_path ConvertWorker.ocio_file];
      try reflexivity.
    + destruct filter_str as [|a f]; [reflexivity|]. cbn [Str.truthy].
      destruct (Str.truthy (Str.strip (String a f))) eqn:Ht.
      * apply strip_idem.
      * now destruct (Str.strip (String a f)).
    + apply strip_idem.
    + destruct ocio_file as [o|]; cbn [opt_truthy option_map]; [|auto].
      destruct (Str.truthy o) eqn:Ho.
      * destruct (Str.truthy (Str.strip o)) eqn:Hs.
        -- left. now rewrite strip_idem.
        -- right. cbn [opt_truthy]. rewrite Hs. auto.
      * right. destruct o; [|discriminate]. auto.
Qed.

Lemma init_strips_once_witness :
  Str.strip "/cfg/aces.ocio" = "/cfg/aces.ocio".
Proof.
  apply (proj1 (proj2 (proj2 (init_strips_once sample_batch (fun _ => sample_batch)
                                (sample_schedule 1) (mkPath false "/" "tex")
                                " *.png " false (Some " /cfg/aces.ocio") false
                                " /bin/maketx ")))).
  reflexivity.
Defined.

(* ------------------------------------------------------------------ *)
(** * Which tags decide *)

Lemma contains_trans (a b s : string) :
  Str.contains a b = true -> Str.contains b s = true -> Str.contains a s = true.
Proof.
  rewrite !contains_spec. intros [p1 [q1 ->]] [p2 [q2 ->]].
  exists (p2 ^^ p1), (q1 ^^ q2). now rewrite !append_assoc.
Qed.

(** X17.  Three of the ten tags never decide anything: a name is a
    displacement name exactly when its lower-case form contains "dsp",
    "disp" or "height" ("displacement" and "zdisp" contain "disp"), and a
    name that is not is a colour name exactly when it contains "srgb",
    "albedo", "color" or "diffuse" ("basecolor" contains "color"). *)
Theorem classifier_effective_tags (fname : Path) :
  let low := Str.lower (name fname) in
  is_displacement fname
  = (Str.contains "dsp" low || Str.contains "disp" low || Str.contains "height" low)
  /\ is_color fname
     = (negb (is_displacement fname)
        && (Str.contains "srgb" low || Str.contains "albedo" low
            || Str.contains "color" low || Str.contains "diffuse" low)).
Proof.
  intros low.
  assert (H1 : Str.contains "displacement" low = true -> Str.contains "disp" low = true)
    by (apply contains_trans; reflexivity).
  assert (H2 : Str.contains "zdisp" low = true -> Str.contains "disp" low = true)
    by (apply contains_trans; reflexivity).
  assert (H3 : Str.contains "basecolor" low = true -> Str.contains "color" low = true)
    by (apply contains_trans; reflexivity).
  unfold is_color, is_displacement. fold low. cbn [existsb DSP_TAGS COLOR_TAGS].
  destruct (Str.contains "disp" low) eqn:Ed,
           (Str.contains "displacement" low) eqn:Edd,
           (Str.contains "zdisp" low) eqn:Ez;
    try (now discriminate (H1 eq_refl));
    try (now discriminate (H2 eq_refl));
    (destruct (Str.contains "dsp" low), (Str.contains "height" low);
     cbn [orb negb andb]; (split; [reflexivity|]); try reflexivity;
     destruct (Str.contains "color" low) eqn:Ec,
              (Str.contains "basecolor" low) eqn:Eb;
     try (now discriminate (H3 eq_refl));
     destruct (Str.contains "srgb" low), (Str.contains "albedo" low),
              (Str.contains "diffuse" low); reflexivity).
Qed.

(* ------------------------------------------------------------------ *)
(** * The processes of a run *)

Lemma convert_one_at_most_one env src ocio_path verbose maketx_path :
  List.length (snd (convert_one env src ocio_path verbose maketx_path)) <= 1.
Proof.
  unfold_convert.
  destruct (tx_suffixed src); simpl; [lia|].
  destruct (with_suffix src (suffix src ^^ ".tx")) as [e|dst]; simpl; [lia|].
  destruct (needs_conversion env src dst) as [e|[|]]; simpl; try lia.
  destruct (run_child env _) as [e|c]; simpl; [lia|].
  destruct (child_returncode c =? 0)%Z; simpl; lia.
Qed.

Lemma cmd_ends (src : Path) (ocio_path : option string)
    (verbose is_col is_dsp : bool) (maketx_path : string) :
  firstn 2 (build_maketx_cmd src ocio_path verbose is_col is_dsp maketx_path)
  = [maketx_path; str src]
  /\ firstn 2 (rev (build_maketx_cmd src ocio_path verbose is_col is_dsp maketx_path))
     = ["1"; "--threads"].
Proof.
  unfold build_maketx_cmd.
  destruct ocio_path as [[|a o]|], verbose, is_col, is_dsp; split; reflexivity.
Qed.

(** X18.  A run starts at most one converter process per enumerated
    file, and each of them is the worker's converter path applied to the
    path of an enumerated file, ending in "--threads", "1". *)
Theorem run_processes_bounded (env : Env) (task_env : nat -> Env)
    (sch : Schedule) (self : ConvertWorker.t) :
  let r := ConvertWorker.run env task_env sch self in
  List.length (processes r) <= List.length (submitted r)
  /\ forall ev,
      In ev (processes r) ->
      exists p, In p (submitted r)
                /\ firstn 2 (spawn_cmd ev) = [ConvertWorker.maketx_path self; str p]
                /\ firstn 2 (rev (spawn_cmd ev)) = ["1"; "--threads"]
                /\ spawn_capture ev = ConvertWorker.verbose self.
Proof.
  intros r. unfold processes.
  destruct (run_cases env task_env sch self)
    as [[Hs [Ht _]] | [ocio [files [_ [_ [_ [_ [Hs [Ht _]]]]]]]]];
    fold r in Hs, Ht; rewrite Hs, Ht.
  - split; [simpl; lia | intros ev []].
  - split.
    + unfold ConvertWorker.submit_all. clear Hs Ht.
      generalize 0 as k. induction files as [|p files IH]; intros k; [simpl; lia|].
      cbn [List.length seq combine map flat_map fst snd].
      rewrite List.length_app.
      pose proof (convert_one_at_most_one (task_env k) p (Some ocio)
                    (ConvertWorker.verbose self)
                    (ConvertWorker.maketx_path self)) as H1.
      specialize (IH (S k)). lia.
    + intros ev Hev. apply submit_all_events in Hev. destruct Hev as [p [Hp ->]].
      exists p. cbn [spawn_cmd spawn_capture]. unfold convert_cmd.
      pose proof (cmd_ends p (Some ocio) (ConvertWorker.verbose self)
                    (is_color p) (is_displacement p)
                    (ConvertWorker.maketx_path self)) as [H1 H2].
      auto.
Qed.

Lemma run_processes_bounded_witness :
  List.length (processes (ConvertWorker.run sample_batch (fun _ => sample_batch)
                            (sample_schedule 1) (sample_worker None))) <= 2.
Proof.
  apply (proj1 (run_processes_bounded sample_batch (fun _ => sample_batch)
                  (sample_schedule 1) (sample_worker None))).
Defined.

(* ------------------------------------------------------------------ *)
(** * Log and tally agree *)

Section LogTally.

Variable cancelled : nat -> bool.
Variable total : nat.

Lemma count_lines_app (f : LogLine -> bool) (a b : list Signal) :
  count_lines f (a ++ b) = count_lines f a + count_lines f b.
Proof. unfold count_lines. now rewrite filter_app, List.length_app. Qed.

Lemma drain_tally_lines (futs : list Outcome) (k : nat) (t : Tally) :
  let d := ConvertWorker.drain cancelled k futs total t in
  ok (fst d) = ok t + count_lines is_ok_line (snd d)
  /\ fail (fst d) = fail t + count_lines is_fail_line (snd d).
Proof.
  revert k t. induction futs as [|o futs IH]; intros k t; cbn [ConvertWorker.drain].
  - simpl. unfold count_lines. simpl. lia.
  - destruct (cancelled k).
    + simpl. unfold count_lines. simpl. lia.
    + specialize (IH (S k) (fst (ConvertWorker.tally_one o total t))).
      destruct o as [[src success] message].
      unfold ConvertWorker.tally_one in *.
      destruct success;
        [|destruct (Str.contains "skip" (Str.lower message))];
        cbn [fst snd] in *;
        destruct (ConvertWorker.drain _ _ _ _ _) as [t' s'];
        cbn [fst snd ok fail] in *;
        rewrite !count_lines_app; unfold count_lines at 1 3; simpl; lia.
Qed.

End LogTally.

(** X19.  In every run, cancelled or not, the final tally agrees with
    the log: the success count of the finished signal is the number of
    success lines emitted and its failure count the number of failure
    lines. *)
Theorem run_tally_matches_log (env : Env) (task_env : nat -> Env)
    (sch : Schedule) (self : ConvertWorker.t) (k f : nat) :
  let r := ConvertWorker.run env task_env sch self in
  In (finished k f) (signals r) ->
  k = count_lines is_ok_line (signals r)
  /\ f = count_lines is_fail_line (signals r).
Proof.
  intros r.
  destruct (run_cases env task_env sch self)
    as [[_ [_ [Hsig|[msg Hsig]]]] | [ocio [files [_ [_ [_ [_ [_ [_ [_ [w Hsig]]]]]]]]]]];
    fold r in Hsig; rewrite Hsig.
  - contradiction.
  - intros [H|[]]. discriminate.
  - cbv zeta.
    set (futs := ConvertWorker.as_completed sch
                   (map fst (ConvertWorker.submit_all task_env files ocio self))).
    pose proof (drain_tally_lines (cancelled_at sch) (List.length files) futs 0
                  (mkTally 0 0 0)) as Hl.
    pose proof (drain_no_terminal (cancelled_at sch) (List.length files) futs 0
                  (mkTally 0 0 0)) as Hnt.
    cbv zeta in Hl. cbn [ok fail] in Hl.
    destruct (ConvertWorker.drain _ _ _ _ _) as [t sigs]. cbn [fst snd] in *.
    intros [H|H]; [discriminate|].
    apply in_app_or in H. destruct H as [H|[H|[]]].
    + rewrite forallb_forall in Hnt. specialize (Hnt _ H). discriminate.
    + injection H as <- <-.
      change (item_done (LogFound (List.length files) w)
              :: sigs ++ [finished (ok t) (fail t)])
        with ([item_done (LogFound (List.length files) w)]
              ++ sigs ++ [finished (ok t) (fail t)]).
      rewrite !count_lines_app. unfold count_lines at 1 3 4 6. simpl. lia.
Qed.

Lemma run_tally_matches_log_witness :
  let r := ConvertWorker.run sample_batch (fun _ => sample_batch)
             (sample_schedule 1) (sample_worker None) in
  1 = count_lines is_ok_line (signals r) /\ 0 = count_lines is_fail_line (signals r).
Proof.
  intros r.
  apply (run_tally_matches_log sample_batch (fun _ => sample_batch)
           (sample_schedule 1) (sample_worker None) 1 0).
  vm_compute. do 4 right. left. reflexivity.
Defined.

(** X20.  For a source with a plain name and an extension other than
    ".tx" whose destination exists, when both modification times can be
    read the converter is started exactly when the source is strictly
    newer; a destination at least as new as the source is left alone and
    reported as up to date. *)
Theorem rebuild_iff_source_newer (env : Env) (src : Path)
    (ocio_path : option string) (verbose : bool) (maketx_path : string)
    (ss ds : Stat) :
  plain_name src ->
  tx_suffixed src = false ->
  path_exists env (str src ^^ ".tx") = inr true ->
  path_stat env (str src) = inr ss ->
  path_stat env (str src ^^ ".tx") = inr ds ->
  let r := convert_one env src ocio_path verbose maketx_path in
  ((st_mtime ds < st_mtime ss)%Q ->
   snd r = [Spawned (convert_cmd src ocio_path verbose maketx_path) verbose])
  /\ ((st_mtime ss <= st_mtime ds)%Q ->
      r = ((src, false, "Up-to-date .tx exists: " ^^ name src ^^ ".tx; skipping."), [])).
Proof.
  intros Hplain Htx Hex Hss Hds r.
  pose proof (with_suffix_tx src Hplain) as Hw.
  assert (Hstr : str (tx_sibling src) = str src ^^ ".tx").
  { unfold str, tx_sibling. cbn [dirpart name]. now rewrite append_assoc. }
  assert (Hn : needs_conversion env src (tx_sibling src)
               = inr (mtime_gt (st_mtime ss) (st_mtime ds))).
  { unfold needs_conversion. now rewrite Hstr, Hex, Hss, Hds. }
  split.
  - intros Hlt. apply mtime_gt_spec in Hlt. rewrite Hlt in Hn. unfold r.
    destruct (run_child env (convert_cmd src ocio_path verbose maketx_path))
      as [e|c] eqn:Hr.
    + now rewrite (convert_one_spawn_raises _ _ _ _ _ _ e Htx Hw Hn Hr).
    + now rewrite (convert_one_child_returns _ _ _ _ _ _ c Htx Hw Hn Hr).
  - intros Hle.
    assert (Hf : mtime_gt (st_mtime ss) (st_mtime ds) = false).
    { apply not_true_is_false. rewrite mtime_gt_spec. now apply Qle_not_lt. }
    rewrite Hf in Hn. unfold r.
    rewrite (convert_one_up_to_date _ _ _ _ _ _ Htx Hw Hn).
    unfold tx_sibling. cbn [name]. now rewrite append_assoc.
Qed.

Lemma rebuild_iff_source_newer_witness :
  convert_one (sample_env true (Some (7#1)) (9#1) child_ok) a_png None false "maketx"
  = ((a_png, false, "Up-to-date .tx exists: a.png.tx; skipping."), []).
Proof.
  refine (proj2 (rebuild_iff_source_newer
                   (sample_env true (Some (7#1)) (9#1) child_ok)
                   a_png None false "maketx"
                   {| st_mtime := 7#1 |} {| st_mtime := 9#1 |} _ _ _ _ _) _).
  - split; [discriminate | reflexivity].
  - reflexivity.
  - reflexivity.
  - reflexivity.
  - reflexivity.
  - vm_compute. discriminate.
Defined.
